(** * IoT sensor simulator: a shallow embedding of
      [src/data/generators/sensor_simulator.py] and its properties.

    The simulator keeps a list of sensor dictionaries, perturbs their
    values with draws from Python's [random] module and hands one JSON
    message per sensor to an MQTT client.  Sensor values are Python
    numbers: [int] for motion sensors, binary64 [float] for temperature
    and humidity.  Floats are modelled with the IEEE-754 specification
    of the standard library ([SpecFloat], precision 53, emax 1024), the
    random module and the clock are external and enter as parameters. *)

From Stdlib Require Import Ascii String Decimal DecimalString DecimalZ.
From Stdlib Require Import ZArith List Bool Lia.
From Stdlib Require Import Floats.SpecFloat.
Import ListNotations.

Local Open Scope Z_scope.

(** ** Binary64 floats *)

Module F64.

Definition prec : Z := 53.
Definition emax : Z := 1024.

Definition add : spec_float -> spec_float -> spec_float := SFadd prec emax.
Definition div : spec_float -> spec_float -> spec_float := SFdiv prec emax.
Definition opp : spec_float -> spec_float := SFopp.

(** [float(z)] for a Python int: the nearest double, ties to even.
    (CPython raises [OverflowError] where this returns an infinity.) *)
Definition of_Z (z : Z) : spec_float := binary_normalize prec emax z 0 false.

(** The double nearest to the decimal [(-1)^s * n * 10^e10]: what
    [strtod] returns on a digit string.  The IEEE division of two integers
    is correctly rounded for significands of any size. *)
Definition of_decimal (s : bool) (n : Z) (e10 : Z) : spec_float :=
  match n * 10 ^ (Z.max e10 0) with
  | Zpos p =>
      div (S754_finite s p 0)
          (S754_finite false (Z.to_pos (10 ^ (Z.max (- e10) 0))) 0)
  | _ => S754_zero s
  end.

(** A float literal with [nd] digits after the point, [15.0] is
    [literal 150 1]. *)
Definition literal (digits : Z) (nd : Z) : spec_float :=
  of_decimal false digits (- nd).

(** Nearest integer to [a / d] for [d > 0], ties to the even integer. *)
Definition round_half_even_div (a d : Z) : Z :=
  let q := a / d in
  let r := a mod d in
  match 2 * r ?= d with
  | Lt => q
  | Gt => q + 1
  | Eq => if Z.even q then q else q + 1
  end.

(** [round(x, ndigits)] on a float: CPython prints [x] correctly rounded
    (half to even, on the exact binary value) with [ndigits] decimals and
    reads the digits back.  Infinities and NaN round to themselves. *)
Definition round (x : spec_float) (ndigits : Z) : spec_float :=
  match x with
  | S754_finite s m e =>
      let up := Z.max ndigits 0 in
      let down := Z.max (- ndigits) 0 in
      let num := Zpos m * 2 ^ (Z.max e 0) * 10 ^ up in
      let den := 2 ^ (Z.max (- e) 0) * 10 ^ down in
      of_decimal s (round_half_even_div num den) (- ndigits)
  | _ => x
  end.

End F64.

(** ** Python numbers and their comparisons *)

Inductive pyval : Type :=
  | PInt (z : Z)
  | PFloat (f : spec_float).

(** The exact value of a number: NaN, an infinity, or the dyadic
    rational [m * 2^e].  Python compares ints and floats by exact value,
    with every comparison against NaN false.  On two valid doubles this
    is the IEEE comparison [SFcompare] of the library (lemma
    [xcompare_SFcompare] below); stated on values it needs no canonical
    representation of the operands. *)
Inductive xnum : Type :=
  | XNaN
  | XInf (negative : bool)
  | XFin (m e : Z).

Definition xnum_of_float (f : spec_float) : xnum :=
  match f with
  | S754_zero _ => XFin 0 0
  | S754_infinity s => XInf s
  | S754_nan => XNaN
  | S754_finite s m e => XFin (cond_Zopp s (Zpos m)) e
  end.

Definition xnum_of (v : pyval) : xnum :=
  match v with
  | PInt z => XFin z 0
  | PFloat f => xnum_of_float f
  end.

Definition dyadic_compare (m1 e1 m2 e2 : Z) : comparison :=
  let e := Z.min e1 e2 in
  (m1 * 2 ^ (e1 - e) ?= m2 * 2 ^ (e2 - e)).

Definition xcompare (x y : xnum) : option comparison :=
  match x, y with
  | XNaN, _ | _, XNaN => None
  | XInf sx, XInf sy =>
      Some (match sx, sy with
            | true, false => Lt
            | false, true => Gt
            | _, _ => Eq
            end)
  | XInf s, XFin _ _ => Some (if s then Lt else Gt)
  | XFin _ _, XInf s => Some (if s then Gt else Lt)
  | XFin m1 e1, XFin m2 e2 => Some (dyadic_compare m1 e1 m2 e2)
  end.

Definition py_compare (a b : pyval) : option comparison :=
  xcompare (xnum_of a) (xnum_of b).

Definition py_lt (a b : pyval) : bool :=
  match py_compare a b with Some Lt => true | _ => false end.
Definition py_gt (a b : pyval) : bool :=
  match py_compare a b with Some Gt => true | _ => false end.
Definition py_le (a b : pyval) : bool :=
  match py_compare a b with Some (Lt | Eq) => true | _ => false end.
Definition py_eq (a b : pyval) : bool :=
  match py_compare a b with Some Eq => true | _ => false end.

Definition py_float (v : pyval) : spec_float :=
  match v with
  | PInt z => F64.of_Z z
  | PFloat f => f
  end.

(** [a + b]: int arithmetic on two ints, float arithmetic otherwise. *)
Definition py_add (a b : pyval) : pyval :=
  match a, b with
  | PInt x, PInt y => PInt (x + y)
  | _, _ => PFloat (F64.add (py_float a) (py_float b))
  end.

(** Unary minus. *)
Definition py_neg (a : pyval) : pyval :=
  match a with
  | PInt x => PInt (- x)
  | PFloat f => PFloat (F64.opp f)
  end.

(** The builtins [min(a, b)] and [max(a, b)]: the first argument is kept
    unless the second compares strictly below (above) it. *)
Definition py_min (a b : pyval) : pyval := if py_lt b a then b else a.
Definition py_max (a b : pyval) : pyval := if py_gt b a then b else a.

(** [round(v, ndigits)]: an int is returned as it is for [ndigits >= 0]
    and rounded to a multiple of [10^-ndigits] otherwise. *)
Definition py_round (v : pyval) (ndigits : Z) : pyval :=
  match v with
  | PInt z =>
      if 0 <=? ndigits then PInt z
      else PInt (F64.round_half_even_div z (10 ^ (- ndigits)) * 10 ^ (- ndigits))
  | PFloat f => PFloat (F64.round f ndigits)
  end.

(** [str(z)] for an int. *)
Definition str_int (z : Z) : string := NilEmpty.string_of_int (Z.to_int z).

(** ** Exceptions *)

Inductive exn : Type :=
  | KeyError (key : string)
  | IndexError.

Inductive result (A : Type) : Type :=
  | Ok (a : A)
  | Raise (e : exn).
Arguments Ok {A} a.
Arguments Raise {A} e.

(** ** Data model *)

Local Open Scope string_scope.

(** One entry of [SENSOR_TYPES]. *)
Record Config : Type := mkConfig {
  cfg_unit : string;
  cfg_min : pyval;
  cfg_max : pyval;
  cfg_precision : Z;
  cfg_drift_max : pyval
}.

(** The unit of temperature: the five bytes that the source file holds
    between the quotes (195, 130, 194, 176 and the letter C). *)
Definition temperature_unit : string :=
  String (ascii_of_nat 195) (String (ascii_of_nat 130)
    (String (ascii_of_nat 194) (String (ascii_of_nat 176) "C"))).

(** The dictionary [SENSOR_TYPES], in insertion order. *)
Definition SENSOR_TYPES : list (string * Config) :=
  [ ("temperature",
     mkConfig temperature_unit
              (PFloat (F64.literal 150 1)) (PFloat (F64.literal 350 1))
              1 (PFloat (F64.literal 5 1)));
    ("humidity",
     mkConfig "%"
              (PFloat (F64.literal 300 1)) (PFloat (F64.literal 800 1))
              1 (PFloat (F64.literal 20 1)));
    ("motion",
     mkConfig "boolean" (PInt 0) (PInt 1) 0 (PInt 0)) ].

(** [d[key]] and [list(d.keys())] on a dictionary with string keys. *)
Fixpoint dict_get {A : Type} (d : list (string * A)) (key : string) : result A :=
  match d with
  | [] => Raise (KeyError key)
  | (k, v) :: rest => if String.eqb k key then Ok v else dict_get rest key
  end.

Definition dict_keys {A : Type} (d : list (string * A)) : list string :=
  map fst d.

(** A sensor dictionary: keys [id], [type], [location], [current_value]
    and [config]. *)
Record Sensor : Type := mkSensor {
  s_id : string;
  s_type : string;
  s_location : string;
  s_current_value : pyval;
  s_config : Config
}.

(** [sensor["current_value"] = v] *)
Definition set_current_value (sensor : Sensor) (v : pyval) : Sensor :=
  mkSensor (s_id sensor) (s_type sensor) (s_location sensor) v (s_config sensor).

(** The payload dictionary handed to [json.dumps]. *)
Inductive pyobj : Type :=
  | OStr (s : string)
  | ONum (v : pyval).

Definition Payload : Type := list (string * pyobj).

(** The MQTT client object, as far as the simulator drives it: whether
    it is connected and the messages it was asked to publish. *)
Record Client : Type := mkClient {
  connected : bool;
  published : list (string * string)
}.

(** The simulator object. *)
Record SensorSimulator : Type := mkSim {
  mqtt_host : string;
  mqtt_port : Z;
  num_sensors : Z;
  interval : pyval;
  client : Client;
  sensors : list Sensor
}.

Definition set_sensors (self : SensorSimulator) (l : list Sensor) : SensorSimulator :=
  mkSim (mqtt_host self) (mqtt_port self) (num_sensors self) (interval self)
        (client self) l.

Definition set_client (self : SensorSimulator) (c : Client) : SensorSimulator :=
  mkSim (mqtt_host self) (mqtt_port self) (num_sensors self) (interval self)
        c (sensors self).

(** [range(n)] *)
Definition py_range (n : Z) : list Z :=
  map Z.of_nat (seq 0 (Z.to_nat n)).

(** Where [KeyboardInterrupt] is delivered: after [int_ticks] complete
    iterations of the loop, before the statement [int_at] of the next. *)
Inductive loop_point : Type := AtUpdate | AtPublish | AtSleep.

Record Interrupt : Type := mkInterrupt {
  int_ticks : nat;
  int_at : loop_point
}.

(** The default configuration and the parsed command line: [argparse]
    fills in the defaults for the flags that are absent. *)
Definition DEFAULT_MQTT_HOST : string := "localhost".
Definition DEFAULT_MQTT_PORT : Z := 1883.
Definition DEFAULT_NUM_SENSORS : Z := 5.
Definition DEFAULT_INTERVAL : pyval := PFloat (F64.literal 10 1).

Record Args : Type := mkArgs {
  arg_host : string;
  arg_port : Z;
  arg_sensors : Z;
  arg_interval : pyval
}.

(** ** The environment

    What the program takes from outside: the [random] module, as a
    generator state [rng] and the functions the program calls, each
    returning its sample and the next state ([random.choice] is the
    library's [seq[_randbelow(len(seq))]]); the clock, with
    [datetime.now().isoformat()] and [time.sleep]; the serialisers
    [json.dumps] and [str] on a payload dictionary; and the broker, where
    [broker_refuses host port = Some e] when [client.connect(host, port, 60)]
    raises an exception whose text is [e]. *)
Class Env : Type := mkEnv {
  rng : Type;
  random_random : rng -> spec_float * rng;
  random_uniform : pyval -> pyval -> rng -> spec_float * rng;
  randbelow : nat -> rng -> nat * rng;
  clk : Type;
  now_isoformat : clk -> string * clk;
  time_sleep : pyval -> clk -> clk;
  json_dumps : Payload -> string;
  dict_str : Payload -> string;
  broker_refuses : string -> Z -> option string
}.

(** ** The simulator *)

Section Simulator.

Context {E : Env}.

(** Everything outside the simulator object. *)
Record World : Type := mkWorld {
  w_rng : rng;
  w_clock : clk;
  w_stdout : list string
}.

Definition set_rng (w : World) (g : rng) : World :=
  mkWorld g (w_clock w) (w_stdout w).
Definition set_clock (w : World) (k : clk) : World :=
  mkWorld (w_rng w) k (w_stdout w).
Definition print (line : string) (w : World) : World :=
  mkWorld (w_rng w) (w_clock w) (w_stdout w ++ [line])%list.

(** Computations that draw from the generator and may raise. *)
Definition Rand (A : Type) : Type := rng -> result (A * rng).

Definition ret {A : Type} (a : A) : Rand A := fun g => Ok (a, g).

Definition bind {A B : Type} (c : Rand A) (k : A -> Rand B) : Rand B :=
  fun g =>
    match c g with
    | Ok (a, g') => k a g'
    | Raise e => Raise e
    end.

Definition lift {A : Type} (c : rng -> A * rng) : Rand A := fun g => Ok (c g).

Notation "x <- c ;; k" := (bind c (fun x => k))
  (at level 61, c at next level, right associativity).

Definition random_choice {A : Type} (seq : list A) : Rand A :=
  fun g =>
    let (i, g') := randbelow (List.length seq) g in
    match nth_error seq i with
    | Some a => Ok (a, g')
    | None => Raise IndexError
    end.

(** The body of the loop of [_initialize_sensors], for index [i]. *)
Definition initialize_sensor (i : Z) : Rand Sensor :=
  sensor_type <- random_choice (dict_keys SENSOR_TYPES) ;;
  sensor_config <- (fun g => match dict_get SENSOR_TYPES sensor_type with
                             | Ok c => Ok (c, g)
                             | Raise e => Raise e
                             end) ;;
  u <- lift (random_uniform (cfg_min sensor_config) (cfg_max sensor_config)) ;;
  initial_value <- (if String.eqb sensor_type "motion"
                    then random_choice [PInt 0; PInt 1]
                    else ret (PFloat u)) ;;
  ret (mkSensor (sensor_type ++ "_" ++ str_int (i + 1))
                sensor_type
                ("room_" ++ str_int (i mod 5 + 1))
                initial_value
                sensor_config).

Fixpoint initialize_loop (indices : list Z) (sensors : list Sensor)
  : Rand (list Sensor) :=
  match indices with
  | [] => ret sensors
  | i :: rest =>
      sensor <- initialize_sensor i ;;
      initialize_loop rest (sensors ++ [sensor])%list
  end.

Definition _initialize_sensors (num_sensors : Z) : Rand (list Sensor) :=
  initialize_loop (py_range num_sensors) [].

(** [SensorSimulator(mqtt_host, mqtt_port, num_sensors, interval)] *)
Definition __init__ (mqtt_host : string) (mqtt_port : Z) (num_sensors : Z)
    (interval : pyval) : Rand SensorSimulator :=
  sensors <- _initialize_sensors num_sensors ;;
  ret (mkSim mqtt_host mqtt_port num_sensors interval (mkClient false []) sensors).

(** The body of the loop of [update_sensor_values]. *)
Definition update_sensor (sensor : Sensor) (g : rng) : Sensor * rng :=
  let config := s_config sensor in
  let current := s_current_value sensor in
  if String.eqb (s_type sensor) "motion" then
    let (r, g') := random_random g in
    if py_lt (PFloat r) (PFloat (F64.literal 1 1)) then
      (set_current_value sensor (if py_eq current (PInt 0) then PInt 1 else PInt 0), g')
    else (sensor, g')
  else
    let (drift, g') :=
      random_uniform (py_neg (cfg_drift_max config)) (cfg_drift_max config) g in
    let new_value := py_add current (PFloat drift) in
    let new_value := py_max (cfg_min config) (py_min (cfg_max config) new_value) in
    (set_current_value sensor (py_round new_value (cfg_precision config)), g').

Fixpoint update_loop (sensors : list Sensor) (g : rng) : list Sensor * rng :=
  match sensors with
  | [] => ([], g)
  | sensor :: rest =>
      let (sensor', g1) := update_sensor sensor g in
      let (rest', g2) := update_loop rest g1 in
      (sensor' :: rest', g2)
  end.

Definition update_sensor_values (self : SensorSimulator) (w : World)
  : SensorSimulator * World :=
  let (sensors', g') := update_loop (sensors self) (w_rng w) in
  (set_sensors self sensors', set_rng w g').

(** [connect]: the flag returned, the simulator and the world. *)
Definition connect (self : SensorSimulator) (w : World)
  : bool * SensorSimulator * World :=
  match broker_refuses (mqtt_host self) (mqtt_port self) with
  | None =>
      (true,
       set_client self (mkClient true (published (client self))),
       print ("Connected to MQTT broker at " ++ mqtt_host self ++ ":"
              ++ str_int (mqtt_port self)) w)
  | Some e =>
      (false, self, print ("Failed to connect to MQTT broker: " ++ e) w)
  end.

Definition topic_of (sensor : Sensor) : string :=
  "sensors/" ++ s_type sensor ++ "/" ++ s_id sensor.

Definition payload_of (sensor : Sensor) (timestamp : string) : Payload :=
  [ ("sensor_id", OStr (s_id sensor));
    ("type", OStr (s_type sensor));
    ("location", OStr (s_location sensor));
    ("value", ONum (s_current_value sensor));
    ("unit", OStr (cfg_unit (s_config sensor)));
    ("timestamp", OStr timestamp) ].

(** The message and the printed line of one sensor. *)
Definition message_of (timestamp : string) (s : Sensor) : string * string :=
  (topic_of s, json_dumps (payload_of s timestamp)).

Definition line_of (timestamp : string) (s : Sensor) : string :=
  "Published to " ++ topic_of s ++ ": " ++ dict_str (payload_of s timestamp).

Definition client_publish (c : Client) (topic payload : string) : Client :=
  mkClient (connected c) (published c ++ [(topic, payload)])%list.

Fixpoint publish_loop (todo : list Sensor) (timestamp : string)
    (self : SensorSimulator) (w : World) : SensorSimulator * World :=
  match todo with
  | [] => (self, w)
  | sensor :: rest =>
      let topic := topic_of sensor in
      let payload := payload_of sensor timestamp in
      let self' := set_client self (client_publish (client self) topic (json_dumps payload)) in
      let w' := print ("Published to " ++ topic ++ ": " ++ dict_str payload) w in
      publish_loop rest timestamp self' w'
  end.

Definition publish_sensor_data (self : SensorSimulator) (w : World)
  : SensorSimulator * World :=
  let (timestamp, k') := now_isoformat (w_clock w) in
  publish_loop (sensors self) timestamp self (set_clock w k').

(** The [while True] loop until [KeyboardInterrupt] arrives. *)
Fixpoint run_loop (ticks : nat) (at_ : loop_point) (self : SensorSimulator)
    (w : World) : SensorSimulator * World :=
  match ticks with
  | S n =>
      let (self1, w1) := update_sensor_values self w in
      let (self2, w2) := publish_sensor_data self1 w1 in
      run_loop n at_ self2 (set_clock w2 (time_sleep (interval self2) (w_clock w2)))
  | O =>
      match at_ with
      | AtUpdate => (self, w)
      | AtPublish => update_sensor_values self w
      | AtSleep =>
          let (self1, w1) := update_sensor_values self w in
          publish_sensor_data self1 w1
      end
  end.

Definition run (int : Interrupt) (self : SensorSimulator) (w : World)
  : SensorSimulator * World :=
  let '(ok, self0, w0) := connect self w in
  if negb ok then (self0, w0)
  else
    let (self1, w1) := run_loop (int_ticks int) (int_at int) self0 w0 in
    let w2 := print "Simulator stopped by user" w1 in
    let self2 := set_client self1 (mkClient false (published (client self1))) in
    (self2, print "Disconnected from MQTT broker" w2).

(** The script body after [parser.parse_args()]: build the simulator,
    then run it. *)
Definition main (args : Args) (int : Interrupt) (w : World)
  : result (SensorSimulator * World) :=
  match __init__ (arg_host args) (arg_port args) (arg_sensors args)
                 (arg_interval args) (w_rng w) with
  | Ok (simulator, g') => Ok (run int simulator (set_rng w g'))
  | Raise e => Raise e
  end.

End Simulator.

(** ** A concrete environment

    A generator that counts its draws, a clock that counts its readings
    and a broker that accepts connections to ["localhost"] only.  It is
    used to run the simulator on concrete inputs. *)

Module Demo.

Definition random_random (g : nat) : spec_float * nat :=
  (if Nat.even g then F64.literal 5 2 else F64.literal 5 1, S g).

(** [uniform a b] tries two samples that depend on the state, a large
    one with one decimal and a small one with two, and falls back on
    [a]. *)
Definition sample_large (g : nat) : spec_float :=
  F64.of_decimal false ((203 + 117 * Z.of_nat g) mod 1000) (- 1).

Definition sample_small (g : nat) : spec_float :=
  F64.of_decimal (Nat.even g) (3 * Z.of_nat g mod 25) (- 2).

Definition between (a b : pyval) (c : spec_float) : bool :=
  py_le a (PFloat c) && py_le (PFloat c) b.

Definition random_uniform (a b : pyval) (g : nat) : spec_float * nat :=
  (if between a b (sample_large g) then sample_large g
   else if between a b (sample_small g) then sample_small g
   else py_float a,
   S g).

Definition randbelow (n : nat) (g : nat) : nat * nat :=
  (Nat.modulo g n, S g).

Definition now_isoformat (k : nat) : string * nat :=
  ("2024-01-01T00:00:0" ++ str_int (Z.of_nat k), S k).

Definition time_sleep (_ : pyval) (k : nat) : nat := S k.

Definition obj_str (o : pyobj) : string :=
  match o with
  | OStr s => s
  | ONum (PInt z) => str_int z
  | ONum (PFloat _) => "<float>"
  end.

Definition json_dumps (p : Payload) : string :=
  String.concat "," (map (fun kv => fst kv ++ "=" ++ obj_str (snd kv)) p).

Definition broker_refuses (host : string) (port : Z) : option string :=
  if String.eqb host "localhost" then None else Some "Connection refused".

Definition env : Env :=
  mkEnv nat random_random random_uniform randbelow
        nat now_isoformat time_sleep
        json_dumps json_dumps broker_refuses.

(** A world whose generator is in state [g]. *)
Definition world (g : nat) : @World env := @mkWorld env g 0%nat [].

Definition world0 : @World env := world 0.

(** [SensorSimulator(host, 1883, n, 1.0)] from generator state 0. *)
Definition simulator (host : string) (n : Z)
  : result (SensorSimulator * nat) :=
  @__init__ env host 1883 n (PFloat (F64.literal 10 1)) 0%nat.

(** The simulator built for ["localhost"] with [n] sensors. *)
Definition sim (n : Z) : SensorSimulator :=
  match simulator "localhost" n with
  | Ok (self, _) => self
  | Raise _ => mkSim "" 0 0 (PInt 0) (mkClient false []) []
  end.

(** The same simulator aimed at a host the broker refuses. *)
Definition sim_unreachable (n : Z) : SensorSimulator :=
  match simulator "example.invalid" n with
  | Ok (self, _) => self
  | Raise _ => mkSim "" 0 0 (PInt 0) (mkClient false []) []
  end.

(** The command lines [--sensors n] and [--host host --sensors n]. *)
Definition args (n : Z) : Args :=
  mkArgs DEFAULT_MQTT_HOST DEFAULT_MQTT_PORT n DEFAULT_INTERVAL.

Definition args_to (host : string) (n : Z) : Args :=
  mkArgs host DEFAULT_MQTT_PORT n DEFAULT_INTERVAL.

(** A temperature sensor holding the double nearest to 20.3. *)
Definition sensor_203 : Sensor :=
  mkSensor "temperature_1" "temperature" "room_1"
           (PFloat (F64.literal 203 1))
           (mkConfig temperature_unit
                     (PFloat (F64.literal 150 1)) (PFloat (F64.literal 350 1))
                     1 (PFloat (F64.literal 5 1))).


(** The same environment with a generator whose [_randbelow] leaves its
    bound. *)
Definition env_unbounded : Env :=
  mkEnv nat random_random random_uniform (fun n g => (n, S g))
        nat now_isoformat time_sleep
        json_dumps json_dumps broker_refuses.

End Demo.

(** ** Specification vocabulary *)

Local Open Scope Z_scope.

(** [min <= v <= max] for the bounds of a configuration. *)
Definition in_range (c : Config) (v : pyval) : bool :=
  py_le (cfg_min c) v && py_le v (cfg_max c).

(** A well-formed sensor: its configuration is the entry of
    [SENSOR_TYPES] for its type, its value lies within the bounds, and a
    motion sensor holds the int 0 or the int 1. *)
Definition sensor_ok (s : Sensor) : Prop :=
  dict_get SENSOR_TYPES (s_type s) = Ok (s_config s) /\
  in_range (s_config s) (s_current_value s) = true /\
  (s_type s = "motion"%string ->
   s_current_value s = PInt 0 \/ s_current_value s = PInt 1).

(** What never changes in a fleet: the sensor at index [i] carries the
    configuration of its type, and its id is its type, an underscore and
    [i + 1]. *)
Definition static_ok (fleet : list Sensor) : Prop :=
  forall i s, nth_error fleet i = Some s ->
    dict_get SENSOR_TYPES (s_type s) = Ok (s_config s) /\
    s_id s = (s_type s ++ "_" ++ str_int (Z.of_nat i + 1))%string.

Definition fleet_ok (fleet : list Sensor) : Prop := Forall sensor_ok fleet.

(** [c] occurs in the string [s]. *)
Fixpoint occurs (c : ascii) (s : string) : Prop :=
  match s with
  | EmptyString => False
  | String a rest => a = c \/ occurs c rest
  end.

(** Neither infinite nor NaN. *)
Definition is_finite (f : spec_float) : bool :=
  match f with
  | S754_zero _ | S754_finite _ _ _ => true
  | _ => false
  end.

(** Clamping as the specification words it: below the range the lower
    bound, above it the upper bound, inside it the value itself. *)
Definition clamp (x lo hi : pyval) : pyval :=
  if py_lt x lo then lo else if py_gt x hi then hi else x.

(** [v] is an exact multiple of [10^-p], for [p >= 0]: no float that is
    infinite or NaN is. *)
Definition exact_multiple (v : pyval) (p : Z) : bool :=
  match xnum_of v with
  | XFin m e => (m * 10 ^ p * 2 ^ (Z.max e 0)) mod 2 ^ (Z.max (- e) 0) =? 0
  | _ => false
  end.

(** The keys of a payload and the room labels. *)
Definition payload_fields : list string :=
  ["sensor_id"; "type"; "location"; "value"; "unit"; "timestamp"]%string.

Definition rooms : list string :=
  ["room_1"; "room_2"; "room_3"; "room_4"; "room_5"]%string.

(** What the library documents for [random.uniform] on two floats
    [a <= b] and for [_randbelow] on a positive bound. *)
Definition uniform_contract (E : Env) : Prop :=
  forall (a b : spec_float) (g : rng),
    py_le (PFloat a) (PFloat b) = true ->
    py_le (PFloat a) (PFloat (fst (random_uniform (PFloat a) (PFloat b) g))) = true /\
    py_le (PFloat (fst (random_uniform (PFloat a) (PFloat b) g))) (PFloat b) = true.

Definition randbelow_contract (E : Env) : Prop :=
  forall (n : nat) (g : rng), (0 < n)%nat -> (fst (randbelow n g) < n)%nat.

(** The simulator objects a run can hold: the constructed one and
    whatever the methods make of it. *)
Inductive reachable {E : Env} : SensorSimulator -> Prop :=
  | reach_init host port n itv g self g' :
      __init__ host port n itv g = Ok (self, g') -> reachable self
  | reach_connect self w :
      reachable self -> reachable (snd (fst (connect self w)))
  | reach_update self w :
      reachable self -> reachable (fst (update_sensor_values self w))
  | reach_publish self w :
      reachable self -> reachable (fst (publish_sensor_data self w)).

(** [a, a+1, ..., a+len-1] *)
Definition Zseq (a : Z) (len : nat) : list Z :=
  map (fun k => a + Z.of_nat k) (seq 0 len).

(** All one-decimal doubles from [a / 10] on, [len] of them, lie
    between [lo] and [hi]. *)
Definition decimals_between (lo hi : pyval) (a : Z) (len : nat) : bool :=
  forallb (fun n => py_le lo (PFloat (F64.of_decimal false n (- 1)))
                    && py_le (PFloat (F64.of_decimal false n (- 1))) hi)
          (Zseq a len).

(** The number of update-and-publish cycles a run completes before the
    interrupt: the complete iterations, and one more when the interrupt
    arrives in [time.sleep]. *)
Definition cycles (int : Interrupt) : nat :=
  match int_at int with
  | AtSleep => S (int_ticks int)
  | _ => int_ticks int
  end.

(** The same float, bit for bit. *)
Definition float_same (a b : spec_float) : bool :=
  match a, b with
  | S754_zero s, S754_zero s' => Bool.eqb s s'
  | S754_infinity s, S754_infinity s' => Bool.eqb s s'
  | S754_nan, S754_nan => true
  | S754_finite s m e, S754_finite s' m' e' =>
      Bool.eqb s s' && Pos.eqb m m' && Z.eqb e e'
  | _, _ => false
  end.

(** All one-decimal doubles from [a / 10] on, [len] of them, are left
    as they are by [round(., 1)]. *)
Definition rounding_fixpoints (a : Z) (len : nat) : bool :=
  forallb (fun n => float_same (F64.round (F64.of_decimal false n (- 1)) 1)
                               (F64.of_decimal false n (- 1)))
          (Zseq a len).

(** Every character of [s] passes the test [P]. *)
Fixpoint string_forall (P : ascii -> bool) (s : string) : bool :=
  match s with
  | EmptyString => true
  | String a rest => P a && string_forall P rest
  end.

(** The characters a topic of the simulator is made of: lower-case
    letters, digits, the underscore and the level separator.  The MQTT
    wildcards [+] and [#] are not among them. *)
Definition topic_char (c : ascii) : bool :=
  existsb (Ascii.eqb c)
          (list_ascii_of_string "abcdefghijklmnopqrstuvwxyz0123456789_/").

(** ** Order on Python numbers *)

Local Open Scope Z_scope.

Lemma dyadic_compare_shift (m1 e1 m2 e2 c : Z) :
  c <= e1 -> c <= e2 ->
  dyadic_compare m1 e1 m2 e2 = (m1 * 2 ^ (e1 - c) ?= m2 * 2 ^ (e2 - c)).
Proof.
  intros H1 H2. unfold dyadic_compare.
  set (e := Z.min e1 e2).
  assert (He : c <= e <= e1 /\ e <= e2) by (subst e; lia).
  replace (e1 - c) with ((e1 - e) + (e - c)) by lia.
  replace (e2 - c) with ((e2 - e) + (e - c)) by lia.
  rewrite !Z.pow_add_r by lia.
  rewrite !Z.mul_assoc.
  assert (Hp : 0 < 2 ^ (e - c)) by (apply Z.pow_pos_nonneg; lia).
  set (a := m1 * 2 ^ (e1 - e)). set (b := m2 * 2 ^ (e2 - e)).
  destruct (Z.compare_spec a b) as [E|L|L]; symmetry.
  - apply Z.compare_eq_iff. now rewrite E.
  - apply Z.compare_lt_iff. nia.
  - apply Z.compare_gt_iff. nia.
Qed.

Lemma dyadic_compare_antisym (m1 e1 m2 e2 : Z) :
  dyadic_compare m2 e2 m1 e1 = CompOpp (dyadic_compare m1 e1 m2 e2).
Proof.
  unfold dyadic_compare. rewrite (Z.min_comm e2 e1). apply Z.compare_antisym.
Qed.

Lemma dyadic_compare_refl (m e : Z) : dyadic_compare m e m e = Eq.
Proof. unfold dyadic_compare. apply Z.compare_refl. Qed.

Lemma xcompare_antisym (x y : xnum) :
  xcompare y x = option_map CompOpp (xcompare x y).
Proof.
  destruct x as [|[|]|m1 e1], y as [|[|]|m2 e2]; simpl; try reflexivity.
  now rewrite dyadic_compare_antisym.
Qed.

Lemma xcompare_refl (x : xnum) : x <> XNaN -> xcompare x x = Some Eq.
Proof.
  destruct x as [|[|]|m e]; simpl; try congruence.
  intros _. now rewrite dyadic_compare_refl.
Qed.

Lemma py_compare_antisym (a b : pyval) :
  py_compare b a = option_map CompOpp (py_compare a b).
Proof. apply xcompare_antisym. Qed.

Lemma py_gt_le (a b : pyval) : py_gt a b = true -> py_le b a = true.
Proof.
  unfold py_gt, py_le. rewrite (py_compare_antisym a b).
  destruct (py_compare a b) as [[| |]|]; simpl; congruence.
Qed.

Lemma py_lt_le (a b : pyval) : py_lt a b = true -> py_le a b = true.
Proof.
  unfold py_lt, py_le. destruct (py_compare a b) as [[| |]|]; congruence.
Qed.

Lemma py_le_refl_of (a b : pyval) :
  py_le a b = true -> py_le a a = true /\ py_le b b = true.
Proof.
  unfold py_le, py_compare. intros H.
  assert (Ha : xnum_of a <> XNaN) by (intros E; rewrite E in H; discriminate).
  assert (Hb : xnum_of b <> XNaN).
  { intros E; rewrite E in H. destruct (xnum_of a); discriminate. }
  now rewrite !xcompare_refl.
Qed.

(** The nested builtins of the update step land between the bounds,
    whatever the new value is (a NaN is sent to the upper bound). *)
Lemma clamp_in_range (lo hi x : pyval) :
  py_le lo hi = true ->
  py_le lo (py_max lo (py_min hi x)) = true /\
  py_le (py_max lo (py_min hi x)) hi = true.
Proof.
  intros Hlh. destruct (py_le_refl_of _ _ Hlh) as [Hll Hhh].
  unfold py_max, py_min.
  destruct (py_lt x hi) eqn:Hxh.
  - destruct (py_gt x lo) eqn:Hxl.
    + split; [now apply py_gt_le | now apply py_lt_le].
    + now split.
  - destruct (py_gt hi lo) eqn:Hhl; now split.
Qed.

Lemma clamp_cases (lo hi x : pyval) :
  py_max lo (py_min hi x) = lo \/
  py_max lo (py_min hi x) = hi \/
  py_max lo (py_min hi x) = x.
Proof.
  unfold py_max, py_min.
  destruct (py_lt x hi); [destruct (py_gt x lo) | destruct (py_gt hi lo)]; auto.
Qed.

(** ** Agreement with the IEEE comparison of the library *)

Lemma digits2_pos_bounds (m : positive) :
  2 ^ (Zpos (digits2_pos m) - 1) <= Zpos m < 2 ^ Zpos (digits2_pos m).
Proof.
  induction m as [m IH|m IH|]; cbn [digits2_pos].
  - rewrite Pos2Z.inj_succ.
    replace (Z.succ (Zpos (digits2_pos m)) - 1) with (Z.succ (Zpos (digits2_pos m) - 1)) by lia.
    rewrite !Z.pow_succ_r by lia. lia.
  - rewrite Pos2Z.inj_succ.
    replace (Z.succ (Zpos (digits2_pos m)) - 1) with (Z.succ (Zpos (digits2_pos m) - 1)) by lia.
    rewrite !Z.pow_succ_r by lia. lia.
  - cbn. lia.
Qed.

(** Magnitudes of two canonical binary64 significands compare by
    exponent first. *)
Lemma canonical_compare (m1 m2 : positive) (e1 e2 : Z) :
  canonical_mantissa F64.prec F64.emax m1 e1 = true ->
  canonical_mantissa F64.prec F64.emax m2 e2 = true ->
  dyadic_compare (Zpos m1) e1 (Zpos m2) e2
  = match e1 ?= e2 with
    | Lt => Lt
    | Gt => Gt
    | Eq => Pos.compare_cont Eq m1 m2
    end.
Proof.
  unfold canonical_mantissa, fexp, emin, F64.prec, F64.emax.
  intros C1 C2. apply Z.eqb_eq in C1, C2.
  pose proof (digits2_pos_bounds m1) as [L1 U1].
  pose proof (digits2_pos_bounds m2) as [L2 U2].
  destruct (Z.compare_spec e1 e2) as [->|H|H].
  - unfold dyadic_compare. rewrite Z.min_id, Z.sub_diag, !Z.mul_1_r. reflexivity.
  - rewrite (dyadic_compare_shift _ _ _ _ e1) by lia.
    rewrite Z.sub_diag, Z.mul_1_r. apply Z.compare_lt_iff.
    assert (D2 : Zpos (digits2_pos m2) = 53) by lia.
    assert (D1 : Zpos (digits2_pos m1) <= 53) by lia.
    rewrite D2 in L2. 
    assert (Zpos m1 < 2 ^ 53).
    { eapply Z.lt_le_trans; [exact U1|]. apply Z.pow_le_mono_r; lia. }
    assert (2 ^ 1 <= 2 ^ (e2 - e1)) by (apply Z.pow_le_mono_r; lia).
    change (2 ^ (53 - 1)) with 4503599627370496 in L2.
    change (2 ^ 53) with 9007199254740992 in *. change (2 ^ 1) with 2 in *.
    nia.
  - rewrite (dyadic_compare_shift _ _ _ _ e2) by lia.
    rewrite Z.sub_diag, Z.mul_1_r. apply Z.compare_gt_iff.
    assert (D1 : Zpos (digits2_pos m1) = 53) by lia.
    assert (D2 : Zpos (digits2_pos m2) <= 53) by lia.
    rewrite D1 in L1.
    assert (Zpos m2 < 2 ^ 53).
    { eapply Z.lt_le_trans; [exact U2|]. apply Z.pow_le_mono_r; lia. }
    assert (2 ^ 1 <= 2 ^ (e1 - e2)) by (apply Z.pow_le_mono_r; lia).
    change (2 ^ (53 - 1)) with 4503599627370496 in L1.
    change (2 ^ 53) with 9007199254740992 in *. change (2 ^ 1) with 2 in *.
    nia.
Qed.

Lemma dyadic_compare_opp (m1 e1 m2 e2 : Z) :
  dyadic_compare (- m1) e1 (- m2) e2 = CompOpp (dyadic_compare m1 e1 m2 e2).
Proof.
  unfold dyadic_compare. rewrite !Z.mul_opp_l, Z.compare_opp.
  apply Z.compare_antisym.
Qed.

Lemma dyadic_compare_signs (m1 m2 : positive) (e1 e2 : Z) :
  dyadic_compare (Zneg m1) e1 (Zpos m2) e2 = Lt /\
  dyadic_compare (Zpos m1) e1 (Zneg m2) e2 = Gt /\
  dyadic_compare 0 0 (Zpos m2) e2 = Lt /\
  dyadic_compare 0 0 (Zneg m2) e2 = Gt /\
  dyadic_compare (Zpos m1) e1 0 0 = Gt /\
  dyadic_compare (Zneg m1) e1 0 0 = Lt.
Proof.
  unfold dyadic_compare.
  assert (P : forall a b, 0 < 2 ^ (a - Z.min a b) /\ 0 < 2 ^ (b - Z.min a b))
    by (intros; split; apply Z.pow_pos_nonneg; lia).
  destruct (P e1 e2) as [P1 P2]. destruct (P 0 e2) as [P3 P4].
  destruct (P e1 0) as [P5 P6].
  repeat split;
    first [apply Z.compare_lt_iff | apply Z.compare_gt_iff]; nia.
Qed.

(** On valid binary64 data the comparison by exact value is the IEEE
    comparison of the standard library. *)
Lemma xcompare_SFcompare (x y : spec_float) :
  valid_binary F64.prec F64.emax x = true ->
  valid_binary F64.prec F64.emax y = true ->
  xcompare (xnum_of_float x) (xnum_of_float y) = SFcompare x y.
Proof.
  destruct x as [sx|sx| |sx mx ex]; try reflexivity; intros Vx.
  - destruct y as [sy|sy| |sy my ey]; try reflexivity; intros _.
    cbn [xnum_of_float xcompare SFcompare].
    destruct (dyadic_compare_signs my my ey ey) as (_ & _ & A & B & _).
    destruct sy; cbn [cond_Zopp Z.opp]; now rewrite ?A, ?B.
  - destruct y as [sy|sy| |sy my ey]; reflexivity.
  - destruct y as [sy|sy| |sy my ey]; try reflexivity; intros Vy;
      cbn [xnum_of_float xcompare SFcompare].
    + destruct (dyadic_compare_signs mx mx ex ex) as (_ & _ & _ & _ & A & B).
      destruct sx; cbn [cond_Zopp Z.opp]; now rewrite ?A, ?B.
    + cbn [valid_binary] in Vx, Vy. unfold bounded in Vx, Vy.
      apply andb_true_iff in Vx, Vy.
      destruct Vx as [Cx _], Vy as [Cy _].
      destruct (dyadic_compare_signs mx my ex ey) as (A & B & _).
      pose proof (canonical_compare mx my ex ey Cx Cy) as C.
      destruct sx, sy; cbn [cond_Zopp Z.opp]; rewrite ?A, ?B; try reflexivity.
      * change (Zneg mx) with (- (Zpos mx)). change (Zneg my) with (- (Zpos my)).
        rewrite dyadic_compare_opp, C. f_equal.
        destruct (ex ?= ey); reflexivity.
      * now rewrite C.
Qed.

(** ** Rounding to decimals *)

Lemma round_half_even_div_between (a d L H : Z) :
  0 < d -> L * d <= a <= H * d ->
  L <= F64.round_half_even_div a d <= H.
Proof.
  intros Hd [Hl Hh]. unfold F64.round_half_even_div.
  pose proof (Z.div_mod a d ltac:(lia)) as E.
  pose proof (Z.mod_pos_bound a d Hd) as B.
  set (q := a / d) in *. set (r := a mod d) in *.
  assert (Hq : L <= q <= H) by nia.
  assert (Hr : q = H -> r = 0) by nia.
  destruct (Z.compare_spec (2 * r) d) as [C|C|C].
  - destruct (Z.even q); lia.
  - lia.
  - lia.
Qed.

(** The exact value of a float lying between two positive integers. *)
Lemma float_between_ints (f : spec_float) (L H : Z) :
  0 < L ->
  py_le (PInt L) (PFloat f) = true ->
  py_le (PFloat f) (PInt H) = true ->
  exists m e, f = S754_finite false m e /\
    L * 2 ^ (Z.max (- e) 0) <= Zpos m * 2 ^ (Z.max e 0) <= H * 2 ^ (Z.max (- e) 0).
Proof.
  intros HL Hlo Hhi.
  unfold py_le, py_compare in Hlo, Hhi. cbn [xnum_of] in Hlo, Hhi.
  destruct f as [s|s| |s m e]; cbn [xnum_of_float xcompare] in Hlo, Hhi.
  - unfold dyadic_compare in Hlo. rewrite Z.min_id, Z.sub_diag in Hlo.
    destruct (Z.compare_spec (L * 2 ^ 0) (0 * 2 ^ 0)); try discriminate; lia.
  - destruct s; discriminate.
  - discriminate.
  - set (c := Z.min e 0).
    rewrite (dyadic_compare_shift _ _ _ _ c) in Hlo by (subst c; lia).
    rewrite (dyadic_compare_shift _ _ _ _ c) in Hhi by (subst c; lia).
    assert (E1 : Z.max (- e) 0 = 0 - c) by (subst c; lia).
    assert (E2 : Z.max e 0 = e - c) by (subst c; lia).
    assert (P1 : 0 < 2 ^ (0 - c)) by (apply Z.pow_pos_nonneg; subst c; lia).
    assert (P2 : 0 < 2 ^ (e - c)) by (apply Z.pow_pos_nonneg; subst c; lia).
    destruct s; unfold cond_Zopp in Hlo, Hhi.
    + exfalso.
      destruct (Z.compare_spec (L * 2 ^ (0 - c)) (- Zpos m * 2 ^ (e - c)));
        try discriminate; nia.
    + exists m, e. split; [reflexivity|]. rewrite E1, E2.
      destruct (Z.compare_spec (L * 2 ^ (0 - c)) (Zpos m * 2 ^ (e - c)));
        try discriminate;
        destruct (Z.compare_spec (Zpos m * 2 ^ (e - c)) (H * 2 ^ (0 - c)));
        try discriminate; lia.
Qed.

(** Rounding a float that lies in [[L, H]] to [nd >= 0] decimals gives
    the double nearest to [n / 10^nd] for an integer [n] with
    [L * 10^nd <= n <= H * 10^nd]. *)
Lemma round_between (f : spec_float) (L H nd : Z) :
  0 < L -> 0 <= nd ->
  py_le (PInt L) (PFloat f) = true ->
  py_le (PFloat f) (PInt H) = true ->
  exists n, L * 10 ^ nd <= n <= H * 10 ^ nd /\
            F64.round f nd = F64.of_decimal false n (- nd).
Proof.
  intros HL Hnd Hlo Hhi.
  destruct (float_between_ints f L H HL Hlo Hhi) as (m & e & -> & B).
  unfold F64.round.
  replace (Z.max nd 0) with nd by lia.
  replace (Z.max (- nd) 0) with 0 by lia.
  rewrite Z.pow_0_r, Z.mul_1_r.
  eexists. split; [|reflexivity].
  assert (P : 0 < 2 ^ Z.max (- e) 0) by (apply Z.pow_pos_nonneg; lia).
  assert (Q : 0 < 10 ^ nd) by (apply Z.pow_pos_nonneg; lia).
  apply round_half_even_div_between; [exact P|]. nia.
Qed.

Lemma in_Zseq (a n : Z) (len : nat) :
  a <= n < a + Z.of_nat len -> In n (Zseq a len).
Proof.
  intros Hn. unfold Zseq. apply in_map_iff.
  exists (Z.to_nat (n - a)). split; [lia|]. apply in_seq. lia.
Qed.

Lemma decimals_between_spec (lo hi : pyval) (a n : Z) (len : nat) :
  decimals_between lo hi a len = true ->
  a <= n < a + Z.of_nat len ->
  py_le lo (PFloat (F64.of_decimal false n (- 1))) = true /\
  py_le (PFloat (F64.of_decimal false n (- 1))) hi = true.
Proof.
  intros T Hn. unfold decimals_between in T.
  rewrite forallb_forall in T.
  specialize (T n (in_Zseq a n len Hn)).
  now apply andb_true_iff in T.
Qed.

Lemma temperature_decimals :
  decimals_between (PFloat (F64.literal 150 1)) (PFloat (F64.literal 350 1))
                   150 201 = true.
Proof. vm_compute. reflexivity. Qed.

Lemma humidity_decimals :
  decimals_between (PFloat (F64.literal 300 1)) (PFloat (F64.literal 800 1))
                   300 501 = true.
Proof. vm_compute. reflexivity. Qed.

(** ** Bounds of the configurations *)

Lemma xcompare_scale_l (m k e : Z) (y : xnum) :
  0 <= k -> xcompare (XFin (m * 2 ^ k) (e - k)) y = xcompare (XFin m e) y.
Proof.
  intros Hk. destruct y as [|s|m2 e2]; try reflexivity.
  cbn [xcompare]. f_equal.
  set (c := Z.min (e - k) e2).
  rewrite (dyadic_compare_shift _ _ _ _ c) by (subst c; lia).
  rewrite (dyadic_compare_shift m e _ _ c) by (subst c; lia).
  replace (e - c) with (k + (e - k - c)) by lia.
  rewrite Z.pow_add_r by (subst c; lia).
  now rewrite Z.mul_assoc.
Qed.

Lemma xcompare_scale_r (m k e : Z) (x : xnum) :
  0 <= k -> xcompare x (XFin (m * 2 ^ k) (e - k)) = xcompare x (XFin m e).
Proof.
  intros Hk. rewrite xcompare_antisym, xcompare_scale_l by exact Hk.
  now rewrite <- xcompare_antisym.
Qed.

(** A float whose exact value is the integer [z] compares as [z]. *)
Lemma py_compare_integral_l (f : spec_float) (z k : Z) (v : pyval) :
  0 <= k -> xnum_of_float f = XFin (z * 2 ^ k) (0 - k) ->
  py_compare (PFloat f) v = py_compare (PInt z) v.
Proof.
  intros Hk Hf. unfold py_compare. cbn [xnum_of]. rewrite Hf.
  now apply xcompare_scale_l.
Qed.

Lemma py_compare_integral_r (f : spec_float) (z k : Z) (v : pyval) :
  0 <= k -> xnum_of_float f = XFin (z * 2 ^ k) (0 - k) ->
  py_compare v (PFloat f) = py_compare v (PInt z).
Proof.
  intros Hk Hf. unfold py_compare. cbn [xnum_of]. rewrite Hf.
  now apply xcompare_scale_r.
Qed.

(** One step of a continuous sensor, whatever the sum [x] is: the stored
    value is the double nearest to [n / 10] for an integer [n] between
    ten times the bounds, and it lies within the bounds. *)
Lemma round_clamp_decimal (lo hi x : spec_float) (L H kl kh : Z) :
  0 < L -> 0 <= kl -> 0 <= kh ->
  xnum_of_float lo = XFin (L * 2 ^ kl) (0 - kl) ->
  xnum_of_float hi = XFin (H * 2 ^ kh) (0 - kh) ->
  py_le (PFloat lo) (PFloat hi) = true ->
  decimals_between (PFloat lo) (PFloat hi) (L * 10 ^ 1)
                   (Z.to_nat (H * 10 ^ 1 - L * 10 ^ 1 + 1)) = true ->
  exists n,
    L * 10 ^ 1 <= n <= H * 10 ^ 1 /\
    py_round (py_max (PFloat lo) (py_min (PFloat hi) (PFloat x))) 1
      = PFloat (F64.of_decimal false n (- 1)) /\
    py_le (PFloat lo) (PFloat (F64.of_decimal false n (- 1))) = true /\
    py_le (PFloat (F64.of_decimal false n (- 1))) (PFloat hi) = true.
Proof.
  intros HL Hkl Hkh Elo Ehi Hlh T.
  destruct (clamp_in_range (PFloat lo) (PFloat hi) (PFloat x) Hlh) as [B1 B2].
  assert (Hy : exists y, py_max (PFloat lo) (py_min (PFloat hi) (PFloat x)) = PFloat y).
  { destruct (clamp_cases (PFloat lo) (PFloat hi) (PFloat x)) as [->|[->| ->]];
      eexists; reflexivity. }
  destruct Hy as [y Hy]. rewrite Hy in *.
  unfold py_le in B1, B2.
  rewrite (py_compare_integral_l lo L kl) in B1 by assumption.
  rewrite (py_compare_integral_r hi H kh) in B2 by assumption.
  destruct (round_between y L H 1 HL ltac:(lia) B1 B2) as (n & Hn & Hr).
  exists n. split; [exact Hn|]. split.
  - cbn [py_round]. now rewrite Hr.
  - apply (decimals_between_spec _ _ _ n _ T). lia.
Qed.

Lemma sensor_types_cases (t : string) (c : Config) :
  dict_get SENSOR_TYPES t = Ok c -> In (t, c) SENSOR_TYPES.
Proof.
  unfold SENSOR_TYPES. cbn [dict_get].
  destruct (String.eqb_spec "temperature" t) as [<-|_];
    [intros [= <-]; cbn [In]; tauto|].
  destruct (String.eqb_spec "humidity" t) as [<-|_];
    [intros [= <-]; cbn [In]; tauto|].
  destruct (String.eqb_spec "motion" t) as [<-|_];
    [intros [= <-]; cbn [In]; tauto|].
  discriminate.
Qed.

Lemma py_add_float (a : pyval) (d : spec_float) :
  py_add a (PFloat d) = PFloat (F64.add (py_float a) d).
Proof. now destruct a. Qed.

(** The update of a temperature or humidity sensor, for any current
    value and any drift. *)
Lemma continuous_step (t : string) (c : Config) (cur : pyval) (drift : spec_float) :
  dict_get SENSOR_TYPES t = Ok c -> t <> "motion"%string ->
  exists n,
    py_round (py_max (cfg_min c) (py_min (cfg_max c) (py_add cur (PFloat drift))))
             (cfg_precision c)
      = PFloat (F64.of_decimal false n (- cfg_precision c)) /\
    in_range c (PFloat (F64.of_decimal false n (- cfg_precision c))) = true.
Proof.
  intros Hc Hm. apply sensor_types_cases in Hc.
  rewrite py_add_float. unfold in_range.
  destruct Hc as [Hc|[Hc|[Hc|[]]]]; injection Hc as <- <-;
    cbn [cfg_min cfg_max cfg_precision]; change (Z.opp 1) with (-1).
  - destruct (round_clamp_decimal (F64.literal 150 1) (F64.literal 350 1)
                (F64.add (py_float cur) drift) 15 35 49 47)
      as (n & _ & R & B1 & B2);
      try lia; try reflexivity; try exact temperature_decimals.
    exists n. now rewrite R, B1, B2.
  - destruct (round_clamp_decimal (F64.literal 300 1) (F64.literal 800 1)
                (F64.add (py_float cur) drift) 30 80 48 46)
      as (n & _ & R & B1 & B2);
      try lia; try reflexivity; try exact humidity_decimals.
    exists n. now rewrite R, B1, B2.
  - congruence.
Qed.

(** ** The update step *)

Section Update.

Context {E : Env}.

(** The update touches nothing but the current value. *)
Lemma update_sensor_frame (s : Sensor) (g : rng) :
  s_id (fst (update_sensor s g)) = s_id s /\
  s_type (fst (update_sensor s g)) = s_type s /\
  s_location (fst (update_sensor s g)) = s_location s /\
  s_config (fst (update_sensor s g)) = s_config s.
Proof.
  unfold update_sensor.
  destruct (String.eqb (s_type s) "motion").
  - destruct (random_random g) as [r g'].
    destruct (py_lt _ _); cbn; auto.
  - destruct (random_uniform _ _ g) as [d g']. cbn. auto.
Qed.

Lemma motion_config_range (b : bool) :
  dict_get SENSOR_TYPES "motion" = Ok (mkConfig "boolean" (PInt 0) (PInt 1) 0 (PInt 0)) /\
  in_range (mkConfig "boolean" (PInt 0) (PInt 1) 0 (PInt 0))
           (if b then PInt 1 else PInt 0) = true.
Proof. destruct b; split; reflexivity. Qed.

Lemma update_sensor_ok (s : Sensor) (g : rng) :
  sensor_ok s -> sensor_ok (fst (update_sensor s g)).
Proof.
  intros (Hc & Hr & Hm).
  destruct (update_sensor_frame s g) as (_ & Ft & _ & Fc).
  unfold sensor_ok. rewrite Ft, Fc. split; [exact Hc|].
  unfold update_sensor in *.
  destruct (String.eqb_spec (s_type s) "motion") as [Em|Em].
  - destruct (random_random g) as [r g'].
    destruct (py_lt _ _); cbn [fst]; [|auto].
    cbn [set_current_value s_current_value].
    rewrite Em in Hc. destruct (motion_config_range true) as [Hd _].
    rewrite Hd in Hc. injection Hc as Hc. rewrite <- Hc.
    destruct (py_eq _ _); split; try reflexivity; auto.
  - destruct (random_uniform _ _ g) as [d g']. cbn [fst].
    cbn [set_current_value s_current_value].
    destruct (continuous_step (s_type s) (s_config s) (s_current_value s) d Hc Em)
      as (n & -> & Hn).
    split; [exact Hn | contradiction].
Qed.

Lemma update_loop_length (l : list Sensor) (g : rng) :
  length (fst (update_loop l g)) = length l.
Proof.
  revert g. induction l as [|s l IH]; intros g; cbn [update_loop].
  - reflexivity.
  - destruct (update_sensor s g) as [s' g1].
    specialize (IH g1). destruct (update_loop l g1) as [l' g2].
    cbn in *. now rewrite IH.
Qed.

(** The loop visits the sensors in order, threading the generator. *)
Lemma update_loop_app (pre post : list Sensor) (g : rng) :
  update_loop (pre ++ post) g =
  (fst (update_loop pre g) ++ fst (update_loop post (snd (update_loop pre g))),
   snd (update_loop post (snd (update_loop pre g))))%list.
Proof.
  revert g. induction pre as [|s pre IH]; intros g; cbn [update_loop app].
  - cbn. now destruct (update_loop post g).
  - destruct (update_sensor s g) as [s' g1].
    rewrite IH. destruct (update_loop pre g1) as [pre' g2]. cbn [fst snd].
    reflexivity.
Qed.

Lemma update_loop_cons (s : Sensor) (post : list Sensor) (g : rng) :
  update_loop (s :: post) g =
  (fst (update_sensor s g) :: fst (update_loop post (snd (update_sensor s g))),
   snd (update_loop post (snd (update_sensor s g)))).
Proof.
  cbn [update_loop]. destruct (update_sensor s g) as [s' g1]. cbn [fst snd].
  now destruct (update_loop post g1).
Qed.

(** Every sensor of the updated fleet is the update of the sensor at the
    same index, at the generator state the loop reached there. *)
Lemma update_loop_nth (l : list Sensor) (g : rng) (i : nat) (s' : Sensor) :
  nth_error (fst (update_loop l g)) i = Some s' ->
  exists s gi, nth_error l i = Some s /\ s' = fst (update_sensor s gi).
Proof.
  revert g i. induction l as [|s l IH]; intros g i; rewrite ?update_loop_cons.
  - cbn. destruct i; discriminate.
  - cbn [fst]. destruct i as [|i]; cbn [nth_error].
    + intros [= <-]. now exists s, g.
    + apply IH.
Qed.

Lemma update_loop_ok (l : list Sensor) (g : rng) :
  fleet_ok l -> fleet_ok (fst (update_loop l g)).
Proof.
  intros Hs. apply Forall_forall. intros s' Hin.
  apply In_nth_error in Hin. destruct Hin as [i Hi'].
  destruct (update_loop_nth l g i s' Hi') as (s & gi & Hn & ->).
  apply update_sensor_ok.
  unfold fleet_ok in Hs. rewrite Forall_forall in Hs.
  apply Hs. eapply nth_error_In; eauto.
Qed.

Lemma update_loop_static (l : list Sensor) (g : rng) :
  static_ok l -> static_ok (fst (update_loop l g)).
Proof.
  intros Hi i s' Hi'.
  destruct (update_loop_nth l g i s' Hi') as (s & gi & Hn & ->).
  destruct (update_sensor_frame s gi) as (-> & -> & _ & ->).
  now apply Hi.
Qed.

End Update.

(** ** Initialisation *)

Section Initialisation.

Context {E : Env}.

(** What one round of the initialisation loop draws and builds. *)
Lemma initialize_sensor_inv (i : Z) (g g' : rng) (s : Sensor) :
  initialize_sensor i g = Ok (s, g') ->
  exists t c v,
    nth_error (dict_keys SENSOR_TYPES) (fst (randbelow 3 g)) = Some t /\
    dict_get SENSOR_TYPES t = Ok c /\
    s = mkSensor (t ++ "_" ++ str_int (i + 1)) t
                 ("room_" ++ str_int (i mod 5 + 1)) v c /\
    let g1 := snd (randbelow 3 g) in
    let u := random_uniform (cfg_min c) (cfg_max c) g1 in
    (t = "motion"%string /\
     nth_error [PInt 0; PInt 1] (fst (randbelow 2 (snd u))) = Some v /\
     g' = snd (randbelow 2 (snd u))
     \/
     t <> "motion"%string /\ v = PFloat (fst u) /\ g' = snd u).
Proof.
  unfold initialize_sensor, bind, random_choice, lift, ret.
  cbn [dict_keys SENSOR_TYPES map fst length].
  destruct (randbelow 3 g) as [k g1]. cbn [fst snd].
  destruct (nth_error _ k) as [t|] eqn:Hk; [|discriminate].
  destruct (dict_get SENSOR_TYPES t) as [c|] eqn:Hc; [|discriminate].
  destruct (random_uniform (cfg_min c) (cfg_max c) g1) as [u g2] eqn:Hu.
  cbn [fst snd].
  destruct (String.eqb_spec t "motion") as [Em|Em].
  - cbn [length]. destruct (randbelow 2 g2) as [j g3] eqn:Hr. cbn [fst snd].
    destruct (nth_error _ j) as [v|] eqn:Hj; [|discriminate].
    intros [= <- <-]. exists t, c, v. rewrite Hu. cbn [fst snd]. rewrite Hr.
    cbn [fst snd]. auto 10.
  - intros [= <- <-]. exists t, c, (PFloat u). rewrite Hu. cbn [fst snd].
    auto 10.
Qed.

Lemma uniform_in_config (U : uniform_contract E) (t : string) (c : Config) (g : rng) :
  dict_get SENSOR_TYPES t = Ok c -> t <> "motion"%string ->
  in_range c (PFloat (fst (random_uniform (cfg_min c) (cfg_max c) g))) = true.
Proof.
  intros Hc Hm. apply sensor_types_cases in Hc. unfold in_range.
  destruct Hc as [Hc|[Hc|[Hc|[]]]]; injection Hc as <- <-;
    cbn [cfg_min cfg_max]; [| |congruence].
  - destruct (U (F64.literal 150 1) (F64.literal 350 1) g eq_refl) as [-> ->].
    reflexivity.
  - destruct (U (F64.literal 300 1) (F64.literal 800 1) g eq_refl) as [-> ->].
    reflexivity.
Qed.

Lemma initialize_sensor_ok (U : uniform_contract E) (i : Z) (g g' : rng) (s : Sensor) :
  initialize_sensor i g = Ok (s, g') -> sensor_ok s.
Proof.
  intros H. apply initialize_sensor_inv in H.
  destruct H as (t & c & v & _ & Hc & -> & Hv). cbn zeta in Hv.
  unfold sensor_ok. cbn [s_type s_config s_current_value].
  split; [exact Hc|].
  destruct Hv as [(-> & Hj & _)|(Hm & -> & _)].
  - destruct (motion_config_range true) as [Hd _].
    rewrite Hd in Hc. injection Hc as <-.
    apply nth_error_In in Hj. cbn [In] in Hj.
    destruct Hj as [<-|[<-|[]]]; split; auto.
  - split; [now apply (uniform_in_config U t) | contradiction].
Qed.

(** With [_randbelow] inside its bound the round raises nothing. *)
Lemma initialize_sensor_total (B : randbelow_contract E) (i : Z) (g : rng) :
  exists s g', initialize_sensor i g = Ok (s, g').
Proof.
  unfold initialize_sensor, bind, random_choice, lift, ret.
  cbn [dict_keys SENSOR_TYPES map fst length].
  pose proof (B 3%nat g ltac:(lia)) as Hk.
  destruct (randbelow 3 g) as [k g1]. cbn [fst] in Hk.
  assert (Hcase : k = 0%nat \/ k = 1%nat \/ k = 2%nat) by lia.
  destruct Hcase as [->|[->| ->]];
    cbn -[str_int Z.modulo Z.add F64.literal random_uniform randbelow];
    destruct (random_uniform _ _ g1) as [u g2];
    try (eexists; eexists; reflexivity).
  pose proof (B 2%nat g2 ltac:(lia)) as Hj.
  destruct (randbelow 2 g2) as [j g3]. cbn [fst] in Hj.
  assert (Hcase : j = 0%nat \/ j = 1%nat) by lia.
  destruct Hcase as [->| ->]; cbn [nth_error]; eexists; eexists; reflexivity.
Qed.

Lemma initialize_loop_inv (idx : list Z) (acc fleet : list Sensor) (g g' : rng) :
  initialize_loop idx acc g = Ok (fleet, g') ->
  exists new, fleet = (acc ++ new)%list /\
    Forall2 (fun i s => exists gi gi', initialize_sensor i gi = Ok (s, gi')) idx new.
Proof.
  revert acc g. induction idx as [|i idx IH]; intros acc g; cbn [initialize_loop].
  - unfold ret. intros [= <- <-]. exists []. rewrite app_nil_r. auto.
  - unfold bind at 1.
    destruct (initialize_sensor i g) as [[s g1]|] eqn:Hs; [|discriminate].
    intros H. apply IH in H. destruct H as (new & -> & F).
    exists (s :: new). rewrite <- app_assoc. split; [reflexivity|].
    constructor; eauto.
Qed.

Lemma initialize_loop_total (B : randbelow_contract E) (idx : list Z)
    (acc : list Sensor) (g : rng) :
  exists fleet g', initialize_loop idx acc g = Ok (fleet, g').
Proof.
  revert acc g. induction idx as [|i idx IH]; intros acc g; cbn [initialize_loop].
  - now exists acc, g.
  - unfold bind at 1.
    destruct (initialize_sensor_total B i g) as (s & g1 & ->). apply IH.
Qed.

Lemma Forall2_nth_error {A B : Type} (R : A -> B -> Prop) (l1 : list A) (l2 : list B) :
  Forall2 R l1 l2 ->
  forall i b, nth_error l2 i = Some b ->
  exists a, nth_error l1 i = Some a /\ R a b.
Proof.
  induction 1 as [|a b l1 l2 Hab _ IH]; intros [|i] b'; cbn [nth_error];
    try discriminate.
  - intros [= <-]. eauto.
  - apply IH.
Qed.

Lemma py_range_nth (n : Z) (i : nat) (z : Z) :
  nth_error (py_range n) i = Some z -> z = Z.of_nat i.
Proof.
  unfold py_range. rewrite nth_error_map.
  destruct (nth_error (seq 0 (Z.to_nat n)) i) as [k|] eqn:Hk; [|discriminate].
  cbn [option_map]. intros [= <-].
  assert (Hlt : (i < length (seq 0 (Z.to_nat n)))%nat)
    by (apply nth_error_Some; congruence).
  rewrite length_seq in Hlt.
  rewrite nth_error_seq in Hk.
  destruct (Nat.ltb_spec i (Z.to_nat n)); [|lia].
  injection Hk as <-. reflexivity.
Qed.

Lemma py_range_length (n : Z) : length (py_range n) = Z.to_nat n.
Proof. unfold py_range. now rewrite length_map, length_seq. Qed.

(** The sensor at index [i] of an initialised fleet was built by round
    [i] of the loop. *)
Lemma initialize_sensors_nth (n : Z) (g g' : rng) (fleet : list Sensor) :
  _initialize_sensors n g = Ok (fleet, g') ->
  length fleet = Z.to_nat n /\
  forall i s, nth_error fleet i = Some s ->
    exists gi gi', initialize_sensor (Z.of_nat i) gi = Ok (s, gi').
Proof.
  unfold _initialize_sensors. intros H.
  apply initialize_loop_inv in H. destruct H as (new & -> & F).
  cbn [app]. split.
  - rewrite <- (Forall2_length F). apply py_range_length.
  - intros i s Hi.
    destruct (Forall2_nth_error _ _ _ F i s Hi) as (z & Hz & gi & gi' & Hs).
    apply py_range_nth in Hz. subst z. eauto.
Qed.

Lemma initialize_sensors_ok (U : uniform_contract E) (n : Z) (g g' : rng)
    (fleet : list Sensor) :
  _initialize_sensors n g = Ok (fleet, g') -> fleet_ok fleet.
Proof.
  intros H. apply initialize_sensors_nth in H. destruct H as [_ H].
  apply Forall_forall. intros s Hin.
  apply In_nth_error in Hin. destruct Hin as [i Hi].
  destruct (H i s Hi) as (gi & gi' & Hs).
  eapply initialize_sensor_ok; eauto.
Qed.

Lemma initialize_sensors_static (n : Z) (g g' : rng) (fleet : list Sensor) :
  _initialize_sensors n g = Ok (fleet, g') -> static_ok fleet.
Proof.
  intros H. apply initialize_sensors_nth in H. destruct H as [_ H].
  intros i s Hi. destruct (H i s Hi) as (gi & gi' & Hs).
  apply initialize_sensor_inv in Hs.
  destruct Hs as (t & c & v & _ & Hc & -> & _). now split.
Qed.

End Initialisation.

(** ** Publishing *)

Section Publishing.

Context {E : Env}.

(** The loop appends one message and one line per sensor and leaves
    everything else as it was. *)
Lemma publish_loop_spec (todo : list Sensor) (ts : string)
    (self : SensorSimulator) (w : World) :
  sensors (fst (publish_loop todo ts self w)) = sensors self /\
  connected (client (fst (publish_loop todo ts self w))) = connected (client self) /\
  published (client (fst (publish_loop todo ts self w)))
    = (published (client self) ++ map (message_of ts) todo)%list /\
  w_rng (snd (publish_loop todo ts self w)) = w_rng w /\
  w_clock (snd (publish_loop todo ts self w)) = w_clock w /\
  w_stdout (snd (publish_loop todo ts self w))
    = (w_stdout w ++ map (line_of ts) todo)%list.
Proof.
  revert self w. induction todo as [|s todo IH]; intros self w; cbn [publish_loop map].
  - cbn [fst snd]. now rewrite !app_nil_r.
  - destruct (IH (set_client self
                   (client_publish (client self) (topic_of s)
                                   (json_dumps (payload_of s ts))))
                 (print ("Published to " ++ topic_of s ++ ": "
                         ++ dict_str (payload_of s ts)) w))
      as (H1 & H2 & H3 & H4 & H5 & H6).
    rewrite H1, H2, H3, H4, H5, H6. cbn.
    rewrite <- !app_assoc. cbn. auto 10.
Qed.

Lemma publish_sensor_data_sensors (self : SensorSimulator) (w : World) :
  sensors (fst (publish_sensor_data self w)) = sensors self.
Proof.
  unfold publish_sensor_data.
  destruct (now_isoformat (w_clock w)) as [ts k'].
  apply publish_loop_spec.
Qed.

Lemma publish_sensor_data_published (self : SensorSimulator) (w : World) :
  published (client (fst (publish_sensor_data self w)))
  = (published (client self)
     ++ map (message_of (fst (now_isoformat (w_clock w)))) (sensors self))%list.
Proof.
  unfold publish_sensor_data.
  destruct (now_isoformat (w_clock w)) as [ts k']. cbn [fst].
  apply publish_loop_spec.
Qed.

Lemma update_sensor_values_sensors (self : SensorSimulator) (w : World) :
  sensors (fst (update_sensor_values self w))
  = fst (update_loop (sensors self) (w_rng w)).
Proof.
  unfold update_sensor_values.
  now destruct (update_loop (sensors self) (w_rng w)).
Qed.

Lemma connect_sensors (self : SensorSimulator) (w : World) :
  sensors (snd (fst (connect self w))) = sensors self.
Proof. unfold connect. now destruct (broker_refuses _ _). Qed.

Lemma init_sensors (host : string) (port n : Z) (itv : pyval) (g g' : rng)
    (self : SensorSimulator) :
  __init__ host port n itv g = Ok (self, g') ->
  _initialize_sensors n g = Ok (sensors self, g').
Proof.
  unfold __init__, bind, ret.
  destruct (_initialize_sensors n g) as [[fleet g1]|]; [|discriminate].
  now intros [= <- <-].
Qed.

(** The fleet of every simulator of a run is well formed. *)
Lemma reachable_fleet_ok (U : uniform_contract E) (self : SensorSimulator) :
  reachable self -> fleet_ok (sensors self).
Proof.
  induction 1 as [host port n itv g self g' Hi|self w _ IH|self w _ IH|self w _ IH].
  - apply init_sensors in Hi. eapply initialize_sensors_ok; eauto.
  - now rewrite connect_sensors.
  - rewrite update_sensor_values_sensors. now apply update_loop_ok.
  - now rewrite publish_sensor_data_sensors.
Qed.

Lemma reachable_static (self : SensorSimulator) :
  reachable self -> static_ok (sensors self).
Proof.
  induction 1 as [host port n itv g self g' Hi|self w _ IH|self w _ IH|self w _ IH].
  - apply init_sensors in Hi. eapply initialize_sensors_static; eauto.
  - now rewrite connect_sensors.
  - rewrite update_sensor_values_sensors. now apply update_loop_static.
  - now rewrite publish_sensor_data_sensors.
Qed.

End Publishing.

(** ** The concrete environment meets the contracts *)

Lemma demo_uniform_contract : uniform_contract Demo.env.
Proof.
  intros a b g Hab. cbn [random_uniform Demo.env Demo.random_uniform fst].
  unfold Demo.between.
  destruct (py_le (PFloat a) (PFloat (Demo.sample_large g))
            && py_le (PFloat (Demo.sample_large g)) (PFloat b)) eqn:H1.
  - now apply andb_true_iff in H1.
  - destruct (py_le (PFloat a) (PFloat (Demo.sample_small g))
              && py_le (PFloat (Demo.sample_small g)) (PFloat b)) eqn:H2.
    + now apply andb_true_iff in H2.
    + cbn [py_float]. split; [apply (py_le_refl_of _ _ Hab) | exact Hab].
Qed.

Lemma demo_randbelow_contract : randbelow_contract Demo.env.
Proof.
  intros n g Hn. cbn [randbelow Demo.env Demo.randbelow fst].
  apply Nat.mod_upper_bound. lia.
Qed.

(** ** The run loop *)

Section RunLoop.

Context {E : Env}.

Lemma update_sensor_values_length (self : SensorSimulator) (w : World) :
  length (sensors (fst (update_sensor_values self w))) = length (sensors self).
Proof. rewrite update_sensor_values_sensors. apply update_loop_length. Qed.

Lemma tick_length (self : SensorSimulator) (w : World) :
  length (sensors (fst (publish_sensor_data (fst (update_sensor_values self w))
                                            (snd (update_sensor_values self w)))))
  = length (sensors self).
Proof.
  now rewrite publish_sensor_data_sensors, update_sensor_values_length.
Qed.

Lemma run_loop_length (ticks : nat) (at_ : loop_point)
    (self : SensorSimulator) (w : World) :
  length (sensors (fst (run_loop ticks at_ self w))) = length (sensors self).
Proof.
  revert self w. induction ticks as [|n IH]; intros self w; cbn [run_loop].
  - destruct at_.
    + reflexivity.
    + apply update_sensor_values_length.
    + pose proof (tick_length self w) as T.
      now destruct (update_sensor_values self w).
  - pose proof (tick_length self w) as T.
    destruct (update_sensor_values self w) as [self1 w1]. cbn [fst snd] in T.
    destruct (publish_sensor_data self1 w1) as [self2 w2]. cbn [fst] in T.
    now rewrite IH.
Qed.

Lemma run_length (int : Interrupt) (self : SensorSimulator) (w : World) :
  length (sensors (fst (run int self w))) = length (sensors self).
Proof.
  unfold run.
  pose proof (connect_sensors self w) as C.
  destruct (connect self w) as [[ok self0] w0]. cbn [fst snd] in C.
  destruct ok; cbn [negb].
  - pose proof (run_loop_length (int_ticks int) (int_at int) self0 w0) as L.
    destruct (run_loop _ _ self0 w0) as [self1 w1].
    cbn [fst set_client sensors] in *. now rewrite L, C.
  - cbn [fst]. now rewrite C.
Qed.

End RunLoop.

(** ** Properties of the simulator *)

Section Claims.

Context {E : Env}.

(** C1: in every simulator of a run, that is after the initialisation and
    after any number of calls of [update_sensor_values], every sensor
    carries the configuration of its type, its current value lies within
    [[min, max]] of that configuration, and a motion sensor holds exactly
    the int 0 or the int 1.  The bounds of the initial values are those
    the library documents for [random.uniform]. *)
Theorem values_stay_within_range (U : uniform_contract E) (self : SensorSimulator) :
  reachable self ->
  Forall (fun s =>
            dict_get SENSOR_TYPES (s_type s) = Ok (s_config s) /\
            py_le (cfg_min (s_config s)) (s_current_value s) = true /\
            py_le (s_current_value s) (cfg_max (s_config s)) = true /\
            (s_type s = "motion"%string ->
             s_current_value s = PInt 0 \/ s_current_value s = PInt 1))
         (sensors self).
Proof.
  intros R. pose proof (reachable_fleet_ok U self R) as Hs.
  eapply Forall_impl; [|exact Hs].
  intros s (Hc & Hr & Hm). unfold in_range in Hr.
  apply andb_true_iff in Hr. tauto.
Qed.

(** The sensor behind [pre] in the fleet is updated at the generator
    state the loop has reached after [pre]. *)
Lemma update_sensor_values_at (self : SensorSimulator) (w : World)
    (pre post : list Sensor) (s : Sensor) :
  sensors self = (pre ++ s :: post)%list ->
  nth_error (sensors (fst (update_sensor_values self w))) (length pre)
  = Some (fst (update_sensor s (snd (update_loop pre (w_rng w))))).
Proof.
  intros H. rewrite update_sensor_values_sensors, H, update_loop_app.
  cbn [fst]. rewrite nth_error_app2 by (rewrite update_loop_length; lia).
  rewrite update_loop_length, Nat.sub_diag, update_loop_cons. reflexivity.
Qed.

(** C3: one call of [update_sensor_values] draws one sample of
    [random.random()] for a motion sensor; when the sample is below 0.1
    a value 0 becomes 1 and a value 1 becomes 0, otherwise the value is
    the one it was. *)
Theorem motion_flips_below_threshold (self : SensorSimulator) (w : World)
    (pre post : list Sensor) (s : Sensor) :
  sensors self = (pre ++ s :: post)%list ->
  s_type s = "motion"%string ->
  let sample := fst (random_random (snd (update_loop pre (w_rng w)))) in
  exists s',
    nth_error (sensors (fst (update_sensor_values self w))) (length pre) = Some s' /\
    if py_lt (PFloat sample) (PFloat (F64.literal 1 1))
    then (s_current_value s = PInt 0 -> s_current_value s' = PInt 1) /\
         (s_current_value s = PInt 1 -> s_current_value s' = PInt 0)
    else s_current_value s' = s_current_value s.
Proof.
  intros Hf Ht sample. eexists.
  split; [exact (update_sensor_values_at self w pre post s Hf)|].
  subst sample. unfold update_sensor. rewrite Ht. cbn [String.eqb Ascii.eqb Bool.eqb].
  destruct (random_random _) as [r g']. cbn [fst].
  destruct (py_lt (PFloat r) _); cbn [fst set_current_value s_current_value].
  - split; intros ->; reflexivity.
  - reflexivity.
Qed.

(** C7: one call of [publish_sensor_data] reads the clock once, and the
    payload of every message it hands to the client carries that one
    timestamp string. *)
Theorem one_timestamp_per_cycle (self : SensorSimulator) (w : World) :
  exists ts msgs,
    ts = fst (now_isoformat (w_clock w)) /\
    w_clock (snd (publish_sensor_data self w)) = snd (now_isoformat (w_clock w)) /\
    published (client (fst (publish_sensor_data self w)))
      = (published (client self) ++ msgs)%list /\
    Forall2 (fun s m =>
               exists p : Payload,
                 snd m = json_dumps p /\
                 dict_get p "timestamp" = Ok (OStr ts))
            (sensors self) msgs.
Proof.
  exists (fst (now_isoformat (w_clock w))),
         (map (message_of (fst (now_isoformat (w_clock w)))) (sensors self)).
  split; [reflexivity|]. split; [|split].
  - unfold publish_sensor_data.
    destruct (now_isoformat (w_clock w)) as [ts k']. cbn [snd].
    now destruct (publish_loop_spec (sensors self) ts self (set_clock w k'))
      as (_ & _ & _ & _ & -> & _).
  - apply publish_sensor_data_published.
  - induction (sensors self) as [|s l IH]; cbn [map]; constructor; [|exact IH].
    exists (payload_of s (fst (now_isoformat (w_clock w)))).
    split; reflexivity.
Qed.

(** C8: when the broker refuses the connection, [run] prints the
    failure and returns at once: the simulator object, with its sensors
    and its client, is the one it was (no update, nothing published), no
    random number is drawn, the clock is not read, and the only output
    is the line that reports the failure. *)
Theorem connect_failure_returns_at_once (int : Interrupt)
    (self : SensorSimulator) (w : World) (e : string) :
  broker_refuses (mqtt_host self) (mqtt_port self) = Some e ->
  fst (run int self w) = self /\
  sensors (fst (run int self w)) = sensors self /\
  published (client (fst (run int self w))) = published (client self) /\
  w_rng (snd (run int self w)) = w_rng w /\
  w_clock (snd (run int self w)) = w_clock w /\
  w_stdout (snd (run int self w))
    = (w_stdout w ++ [("Failed to connect to MQTT broker: " ++ e)%string])%list.
Proof.
  intros H. unfold run, connect. rewrite H. cbn. auto 10.
Qed.

(** C9: [publish_sensor_data] returns the list of sensors it was given,
    with every id, type, location, value and configuration;
    [update_sensor_values] keeps the number of sensors and the id, type,
    location and configuration of each; and a whole run, however long,
    ends with as many sensors as it started with. *)
Theorem sensors_change_only_in_update (self : SensorSimulator) (w : World) :
  sensors (fst (publish_sensor_data self w)) = sensors self /\
  length (sensors (fst (update_sensor_values self w))) = length (sensors self) /\
  (forall i s', nth_error (sensors (fst (update_sensor_values self w))) i = Some s' ->
     exists s, nth_error (sensors self) i = Some s /\
               s_id s' = s_id s /\ s_type s' = s_type s /\
               s_location s' = s_location s /\ s_config s' = s_config s) /\
  (forall int, length (sensors (fst (run int self w))) = length (sensors self)).
Proof.
  split; [apply publish_sensor_data_sensors|].
  split; [apply update_sensor_values_length|].
  split; [|intros int; apply run_length].
  intros i s' Hi. rewrite update_sensor_values_sensors in Hi.
  destruct (update_loop_nth _ _ _ _ Hi) as (s & gi & Hs & ->).
  exists s. split; [exact Hs|]. apply update_sensor_frame.
Qed.

(** C4: in a run, one call of [publish_sensor_data] hands the client one
    message per sensor, in the order of the fleet and so as many messages
    as there are sensors; the message of a sensor goes to the topic
    [sensors/<type>/<id>], and its body is the serialisation of a
    dictionary whose keys are exactly [sensor_id], [type], [location],
    [value], [unit] and [timestamp], holding the sensor's id, type,
    location, current value and unit, the value lying within [[min, max]]
    of the entry of [SENSOR_TYPES] for the sensor's type. *)
Theorem publish_emits_one_message_per_sensor (U : uniform_contract E)
    (self : SensorSimulator) (w : World) :
  reachable self ->
  exists msgs,
    published (client (fst (publish_sensor_data self w)))
      = (published (client self) ++ msgs)%list /\
    length msgs = length (sensors self) /\
    Forall2 (fun s m =>
               fst m = ("sensors/" ++ s_type s ++ "/" ++ s_id s)%string /\
               exists (p : Payload) (c : Config) (ts : string),
                 snd m = json_dumps p /\
                 map fst p = payload_fields /\
                 p = [ ("sensor_id", OStr (s_id s)); ("type", OStr (s_type s));
                       ("location", OStr (s_location s));
                       ("value", ONum (s_current_value s));
                       ("unit", OStr (cfg_unit c)); ("timestamp", OStr ts) ]%string /\
                 dict_get SENSOR_TYPES (s_type s) = Ok c /\
                 py_le (cfg_min c) (s_current_value s) = true /\
                 py_le (s_current_value s) (cfg_max c) = true)
            (sensors self) msgs.
Proof.
  intros R.
  exists (map (message_of (fst (now_isoformat (w_clock w)))) (sensors self)).
  split; [apply publish_sensor_data_published|].
  split; [apply length_map|].
  pose proof (reachable_fleet_ok U self R) as V.
  induction V as [|s l (Hc & Hr & _) _ IH]; cbn [map]; constructor; [|exact IH].
  unfold in_range in Hr. apply andb_true_iff in Hr. destruct Hr as [H1 H2].
  split; [reflexivity|].
  exists (payload_of s (fst (now_isoformat (w_clock w)))), (s_config s),
         (fst (now_isoformat (w_clock w))).
  repeat split; assumption.
Qed.

End Claims.

(** ** Identifiers and topics *)

Lemma str_int_inj (a b : Z) : str_int a = str_int b -> a = b.
Proof.
  unfold str_int. intros H.
  assert (Hi : Some (Z.to_int a) = Some (Z.to_int b))
    by (rewrite <- !NilEmpty.isi; now rewrite H).
  injection Hi as Hi.
  rewrite <- (DecimalZ.of_to a), <- (DecimalZ.of_to b). now rewrite Hi.
Qed.

Lemma string_of_uint_no_underscore (d : Decimal.uint) :
  ~ occurs "_" (NilEmpty.string_of_uint d).
Proof.
  induction d; cbn [NilEmpty.string_of_uint occurs];
    [tauto | intros [H|H]; [discriminate | auto] ..].
Qed.

Lemma str_int_no_underscore (z : Z) : ~ occurs "_" (str_int z).
Proof.
  unfold str_int. destruct (Z.to_int z) as [d|d]; cbn [NilEmpty.string_of_int occurs].
  - apply string_of_uint_no_underscore.
  - intros [H|H]; [discriminate|].
    now apply (string_of_uint_no_underscore d).
Qed.

Lemma occurs_append (c : ascii) (x d : string) : occurs c (x ++ String c d).
Proof. induction x; cbn [append occurs]; auto. Qed.

(** A string is cut in one way only at its last underscore. *)
Lemma underscore_suffix_inj (x y d1 d2 : string) :
  ~ occurs "_" d1 -> ~ occurs "_" d2 ->
  (x ++ String "_" d1 = y ++ String "_" d2)%string -> d1 = d2.
Proof.
  intros H1 H2. revert y.
  induction x as [|a x IH]; intros [|b y]; cbn [append]; intros Heq.
  - now injection Heq.
  - injection Heq as _ Heq. exfalso. apply H1. rewrite Heq. apply occurs_append.
  - injection Heq as _ Heq. exfalso. apply H2. rewrite <- Heq. apply occurs_append.
  - injection Heq as _ Heq. now apply IH in Heq.
Qed.

Lemma append_assoc (a b c : string) : ((a ++ b) ++ c = a ++ (b ++ c))%string.
Proof. induction a as [|x a IH]; cbn [append]; [reflexivity|now rewrite IH]. Qed.

(** Two ids, or two topics, built from different indices differ. *)
Lemma id_index_inj (t1 t2 : string) (i j : Z) :
  (t1 ++ "_" ++ str_int i = t2 ++ "_" ++ str_int j)%string -> i = j.
Proof.
  intros H. apply str_int_inj.
  apply (underscore_suffix_inj t1 t2); auto using str_int_no_underscore.
Qed.

Lemma topic_index_inj (a b : Sensor) (i j : Z) :
  s_id a = (s_type a ++ "_" ++ str_int i)%string ->
  s_id b = (s_type b ++ "_" ++ str_int j)%string ->
  topic_of a = topic_of b -> i = j.
Proof.
  unfold topic_of. intros -> -> H.
  assert (R : forall t d : string,
             ("sensors/" ++ t ++ "/" ++ t ++ "_" ++ d
              = ("sensors/" ++ t ++ "/" ++ t) ++ "_" ++ d)%string)
    by (intros; now rewrite !append_assoc).
  rewrite !R in H. now apply id_index_inj in H.
Qed.

Lemma NoDup_map_by_index {A B : Type} (f : A -> B) (l : list A) :
  (forall i j a b, nth_error l i = Some a -> nth_error l j = Some b ->
                   f a = f b -> i = j) ->
  NoDup (map f l).
Proof.
  intros H. apply NoDup_nth_error. intros i j Hi Heq.
  rewrite length_map in Hi. rewrite !nth_error_map in Heq.
  destruct (nth_error l i) as [a|] eqn:Ha.
  - destruct (nth_error l j) as [b|] eqn:Hb; [|discriminate].
    injection Heq as Heq. eapply H; eauto.
  - apply nth_error_None in Ha. lia.
Qed.

Section FleetClaims.

Context {E : Env}.

(** C10: in every simulator of a run the id of the sensor at index [i]
    is its type, an underscore and [i + 1]; the ids of the fleet are
    pairwise distinct, and so are the topics of the messages that one call
    of [publish_sensor_data] hands to the client. *)
Theorem ids_and_topics_distinct (self : SensorSimulator) (w : World) :
  reachable self ->
  (forall i s, nth_error (sensors self) i = Some s ->
     s_id s = (s_type s ++ "_" ++ str_int (Z.of_nat i + 1))%string) /\
  NoDup (map s_id (sensors self)) /\
  exists msgs,
    published (client (fst (publish_sensor_data self w)))
      = (published (client self) ++ msgs)%list /\
    length msgs = length (sensors self) /\
    NoDup (map fst msgs).
Proof.
  intros R. pose proof (reachable_static self R) as S.
  split; [intros i s Hi; now apply S|]. split.
  - apply NoDup_map_by_index. intros i j a b Ha Hb Heq.
    destruct (S i a Ha) as [_ Ia]. destruct (S j b Hb) as [_ Ib].
    rewrite Ia, Ib in Heq. apply id_index_inj in Heq. lia.
  - exists (map (message_of (fst (now_isoformat (w_clock w)))) (sensors self)).
    split; [apply publish_sensor_data_published|].
    split; [apply length_map|].
    rewrite map_map. cbn [message_of fst].
    apply NoDup_map_by_index. intros i j a b Ha Hb Heq.
    destruct (S i a Ha) as [_ Ia]. destruct (S j b Hb) as [_ Ib].
    pose proof (topic_index_inj a b _ _ Ia Ib Heq). lia.
Qed.

Lemma room_label (i : nat) :
  In ("room_" ++ str_int (Z.of_nat i mod 5 + 1))%string rooms.
Proof.
  pose proof (Z.mod_pos_bound (Z.of_nat i) 5 ltac:(lia)) as B.
  assert (H : Z.of_nat i mod 5 = 0 \/ Z.of_nat i mod 5 = 1 \/
              Z.of_nat i mod 5 = 2 \/ Z.of_nat i mod 5 = 3 \/
              Z.of_nat i mod 5 = 4) by lia.
  destruct H as [->|[->|[->|[->| ->]]]]; cbn; tauto.
Qed.

(** C5: for a count [N >= 0], with [_randbelow] inside its bound and
    [random.uniform] inside its interval, [_initialize_sensors] raises
    nothing and returns [N] sensors in order.  The sensor at index [i] has
    the type that [random.choice] picked among the three keys of
    [SENSOR_TYPES] and the configuration of that type; its location is
    [room_] followed by [i mod 5 + 1], one of [room_1] to [room_5] and the
    same again five indices on; its value is, for temperature and
    humidity, the float that [random.uniform(min, max)] returned, within
    [[min, max]], and for motion the int 0 or 1 that [random.choice]
    picked. *)
Theorem initialization_builds_the_fleet (B : randbelow_contract E)
    (U : uniform_contract E) (N : Z) (g : rng) :
  0 <= N ->
  exists fleet g',
    _initialize_sensors N g = Ok (fleet, g') /\
    Z.of_nat (length fleet) = N /\
    forall i s, nth_error fleet i = Some s ->
      In (s_type s) ["temperature"; "humidity"; "motion"]%string /\
      dict_get SENSOR_TYPES (s_type s) = Ok (s_config s) /\
      s_location s = ("room_" ++ str_int (Z.of_nat i mod 5 + 1))%string /\
      In (s_location s) rooms /\
      (forall s5, nth_error fleet (i + 5) = Some s5 -> s_location s5 = s_location s) /\
      (exists gi : rng,
         let g1 := snd (randbelow 3 gi) in
         let u := random_uniform (cfg_min (s_config s)) (cfg_max (s_config s)) g1 in
         nth_error (dict_keys SENSOR_TYPES) (fst (randbelow 3 gi)) = Some (s_type s) /\
         (s_type s <> "motion"%string -> s_current_value s = PFloat (fst u)) /\
         (s_type s = "motion"%string ->
          nth_error [PInt 0; PInt 1] (fst (randbelow 2 (snd u)))
          = Some (s_current_value s))) /\
      (s_type s <> "motion"%string ->
       exists x, s_current_value s = PFloat x /\
                 py_le (cfg_min (s_config s)) (PFloat x) = true /\
                 py_le (PFloat x) (cfg_max (s_config s)) = true) /\
      (s_type s = "motion"%string ->
       s_current_value s = PInt 0 \/ s_current_value s = PInt 1).
Proof.
  intros HN.
  destruct (initialize_loop_total B (py_range N) [] g) as (fleet & g' & Hf).
  exists fleet, g'. split; [exact Hf|].
  destruct (initialize_sensors_nth N g g' fleet Hf) as [Hlen Hnth].
  split; [lia|].
  assert (Hloc : forall i s, nth_error fleet i = Some s ->
            s_location s = ("room_" ++ str_int (Z.of_nat i mod 5 + 1))%string).
  { intros i s Hi. destruct (Hnth i s Hi) as (gi & gi' & Hs).
    apply initialize_sensor_inv in Hs.
    now destruct Hs as (t & c & v & _ & _ & -> & _). }
  intros i s Hi.
  destruct (Hnth i s Hi) as (gi & gi' & Hs).
  pose proof (initialize_sensor_ok U _ _ _ _ Hs) as (Hc & Hr & Hm).
  pose proof (Hloc i s Hi) as Hl.
  apply initialize_sensor_inv in Hs.
  destruct Hs as (t & c & v & Hk & _ & -> & Hv).
  cbn [s_type s_config s_current_value s_location] in *.
  split; [now apply nth_error_In in Hk|].
  split; [exact Hc|]. split; [reflexivity|].
  split; [apply room_label|]. split.
  - intros s5 H5. rewrite (Hloc _ _ H5). do 2 f_equal.
    rewrite Nat2Z.inj_add. change (Z.of_nat 5) with (1 * 5).
    now rewrite Z.mod_add by lia.
  - split.
    + exists gi. cbn zeta in *. split; [exact Hk|].
      destruct Hv as [(Em & Hj & _)|(Em & -> & _)]; split; intros; congruence.
    + split; [|exact Hm].
      intros Hnm. destruct Hv as [(Em & _)|(_ & -> & _)]; [contradiction|].
      eexists. split; [reflexivity|].
      unfold in_range in Hr. now apply andb_true_iff in Hr.
Qed.

End FleetClaims.

(** ** Float addition returns a number *)

Lemma shr_1_nonneg (mrs : shr_record) : 0 <= shr_m mrs -> 0 <= shr_m (shr_1 mrs).
Proof.
  destruct mrs as [m r s]. cbn [shr_m shr_1].
  destruct m as [|[p|p|]|p]; cbn [shr_m]; lia.
Qed.

Lemma iter_pos_invariant {A : Type} (P : A -> Prop) (f : A -> A) :
  (forall a, P a -> P (f a)) -> forall p a, P a -> P (iter_pos f p a).
Proof.
  intros Hf. induction p as [p IH|p IH|]; intros a Ha; cbn [iter_pos]; auto.
Qed.

Lemma shr_fexp_nonneg (m e : Z) (l : location) :
  0 <= m -> 0 <= shr_m (fst (shr_fexp F64.prec F64.emax m e l)).
Proof.
  intros Hm. unfold shr_fexp, shr.
  assert (H0 : 0 <= shr_m (shr_record_of_loc m l))
    by (destruct l as [|[| |]]; exact Hm).
  destruct (_ - e) as [|p|p]; cbn [fst]; try exact H0.
  apply (iter_pos_invariant (fun r => 0 <= shr_m r)); [apply shr_1_nonneg|exact H0].
Qed.

Lemma round_nearest_even_nonneg (m : Z) (l : location) :
  0 <= m -> 0 <= round_nearest_even m l.
Proof.
  intros Hm. unfold round_nearest_even.
  destruct l as [|[| |]]; try lia. destruct (Z.even m); lia.
Qed.

Lemma binary_round_aux_not_nan (s : bool) (m e : Z) (l : location) :
  0 <= m -> binary_round_aux F64.prec F64.emax s m e l <> S754_nan.
Proof.
  intros Hm. unfold binary_round_aux.
  pose proof (shr_fexp_nonneg m e l Hm) as H1.
  destruct (shr_fexp F64.prec F64.emax m e l) as [mrs' e']. cbn [fst] in H1.
  pose proof (shr_fexp_nonneg _ e' loc_Exact
                (round_nearest_even_nonneg _ (loc_of_shr_record mrs') H1)) as H2.
  destruct (shr_fexp F64.prec F64.emax _ e' loc_Exact) as [mrs'' e''].
  cbn [fst] in H2.
  destruct (shr_m mrs'') as [|p|p]; [discriminate| |lia].
  destruct (e'' <=? _); discriminate.
Qed.

Lemma binary_normalize_not_nan (m e : Z) (szero : bool) :
  binary_normalize F64.prec F64.emax m e szero <> S754_nan.
Proof.
  unfold binary_normalize, binary_round.
  destruct m as [|p|p]; [discriminate| |];
    destruct (shl_align _ _ _) as [mz ez];
    apply binary_round_aux_not_nan; lia.
Qed.

Lemma add_not_nan (x y : spec_float) :
  x <> S754_nan -> is_finite y = true -> F64.add x y <> S754_nan.
Proof.
  intros Hx Hy. unfold F64.add, SFadd.
  destruct x as [sx|sx| |sx mx ex]; [| |contradiction|];
    destruct y as [sy|sy| |sy my ey]; try discriminate.
  - destruct sx, sy; discriminate.
  - apply binary_normalize_not_nan.
Qed.

Lemma of_Z_not_nan (z : Z) : F64.of_Z z <> S754_nan.
Proof. apply binary_normalize_not_nan. Qed.

(** A float between two finite numbers is finite. *)
Lemma between_is_finite (lo hi : pyval) (d : spec_float) (ml el mh eh : Z) :
  xnum_of lo = XFin ml el -> xnum_of hi = XFin mh eh ->
  py_le lo (PFloat d) = true -> py_le (PFloat d) hi = true ->
  is_finite d = true.
Proof.
  unfold py_le, py_compare. intros -> ->. cbn [xnum_of].
  destruct d as [s|[|]| |s m e]; cbn; try reflexivity; discriminate.
Qed.

(** ** Rounding depends on the value only *)

Lemma div_ratio (a d a' d' : Z) :
  0 < d -> 0 < d' -> a * d' = a' * d -> a / d = a' / d'.
Proof.
  intros Hd Hd' H.
  pose proof (Z.div_mod a d ltac:(lia)) as E.
  pose proof (Z.mod_pos_bound a d Hd) as B.
  apply Z.div_unique with (r := (a' - a / d * d')).
  2: lia.
  left.
  set (q := a / d) in *. set (r := a mod d) in *.
  assert (a' * d = (q * d' ) * d + r * d') by nia.
  assert (a' - q * d' >= 0 \/ a' - q * d' < 0) as [|] by lia.
  - split. lia. 
    assert ((a' - q * d') * d = r * d') by nia.
    assert (r * d' < d * d') by nia. nia.
  - exfalso. assert ((a' - q * d') * d = r * d') by nia. nia.
Qed.

Lemma round_half_even_div_ratio (a d a' d' : Z) :
  0 < d -> 0 < d' -> a * d' = a' * d ->
  F64.round_half_even_div a d = F64.round_half_even_div a' d'.
Proof.
  intros Hd Hd' H. unfold F64.round_half_even_div.
  rewrite <- (div_ratio a d a' d' Hd Hd' H).
  pose proof (Z.div_mod a d ltac:(lia)) as E.
  pose proof (Z.div_mod a' d' ltac:(lia)) as E'.
  rewrite <- (div_ratio a d a' d' Hd Hd' H) in E'.
  set (q := a / d) in *. set (r := a mod d) in *. set (r' := a' mod d') in *.
  assert (R : r * d' = r' * d) by nia.
  destruct (Z.compare_spec (2 * r) d) as [C|C|C];
    destruct (Z.compare_spec (2 * r') d') as [C'|C'|C']; try reflexivity;
    exfalso; nia.
Qed.

Lemma dyadic_eq_cross (m1 e1 m2 e2 : Z) :
  dyadic_compare m1 e1 m2 e2 = Eq ->
  m1 * (2 ^ Z.max e1 0 * 2 ^ Z.max (- e2) 0)
  = m2 * (2 ^ Z.max e2 0 * 2 ^ Z.max (- e1) 0).
Proof.
  set (K := Z.max (- e1) 0 + Z.max (- e2) 0).
  rewrite (dyadic_compare_shift _ _ _ _ (- K)) by (subst K; lia).
  replace (e1 - - K) with (Z.max e1 0 + Z.max (- e2) 0) by (subst K; lia).
  replace (e2 - - K) with (Z.max e2 0 + Z.max (- e1) 0) by (subst K; lia).
  rewrite !Z.pow_add_r by lia. apply Z.compare_eq.
Qed.

Lemma round_finite (s : bool) (m : positive) (e nd : Z) :
  F64.round (S754_finite s m e) nd
  = F64.of_decimal s
      (F64.round_half_even_div (Zpos m * 2 ^ Z.max e 0 * 10 ^ Z.max nd 0)
                               (2 ^ Z.max (- e) 0 * 10 ^ Z.max (- nd) 0))
      (- nd).
Proof. reflexivity. Qed.

Lemma round_respects_eq (x : spec_float) (sy : bool) (my : positive) (ey nd : Z) :
  py_eq (PFloat x) (PFloat (S754_finite sy my ey)) = true ->
  F64.round x nd = F64.round (S754_finite sy my ey) nd.
Proof.
  unfold py_eq, py_compare. cbn [xnum_of xnum_of_float].
  destruct x as [sx|[|]| |sx mx ex]; cbn [xnum_of_float xcompare]; try discriminate.
  - destruct (dyadic_compare 0 0 _ ey) eqn:H; try discriminate. intros _.
    apply dyadic_eq_cross in H. exfalso.
    rewrite Z.mul_0_l in H. symmetry in H.
    assert (P : 0 < 2 ^ Z.max ey 0 * 2 ^ Z.max (- 0) 0)
      by (apply Z.mul_pos_pos; apply Z.pow_pos_nonneg; lia).
    apply Z.mul_eq_0 in H. destruct H as [H|H]; [|lia].
    destruct sy; cbn [cond_Zopp] in H; lia.
  - destruct (dyadic_compare _ ex _ ey) eqn:H; try discriminate. intros _.
    apply dyadic_eq_cross in H.
    assert (PA : 0 < 2 ^ Z.max ex 0) by (apply Z.pow_pos_nonneg; lia).
    assert (PB : 0 < 2 ^ Z.max (- ey) 0) by (apply Z.pow_pos_nonneg; lia).
    assert (PC : 0 < 2 ^ Z.max ey 0) by (apply Z.pow_pos_nonneg; lia).
    assert (PD : 0 < 2 ^ Z.max (- ex) 0) by (apply Z.pow_pos_nonneg; lia).
    assert (PU : 0 < 10 ^ Z.max nd 0) by (apply Z.pow_pos_nonneg; lia).
    assert (PV : 0 < 10 ^ Z.max (- nd) 0) by (apply Z.pow_pos_nonneg; lia).
    rewrite !round_finite.
    set (A := 2 ^ Z.max ex 0) in *. clearbody A.
    set (B := 2 ^ Z.max (- ey) 0) in *. clearbody B.
    set (C := 2 ^ Z.max ey 0) in *. clearbody C.
    set (D := 2 ^ Z.max (- ex) 0) in *. clearbody D.
    set (U := 10 ^ Z.max nd 0) in *. clearbody U.
    set (V := 10 ^ Z.max (- nd) 0) in *. clearbody V.
    assert (Px : 0 < Zpos mx * (A * B)) by (repeat apply Z.mul_pos_pos; lia).
    assert (Py : 0 < Zpos my * (C * D)) by (repeat apply Z.mul_pos_pos; lia).
    assert (Hs : sx = sy).
    { destruct sx, sy; cbn [cond_Zopp] in H; rewrite ?Z.mul_opp_l in H;
        try reflexivity; exfalso; lia. }
    subst sy.
    assert (Hm : Zpos mx * (A * B) = Zpos my * (C * D))
      by (destruct sx; cbn [cond_Zopp] in H; rewrite ?Z.mul_opp_l in H; lia).
    f_equal.
    apply round_half_even_div_ratio; [now apply Z.mul_pos_pos ..|].
    replace (Zpos mx * A * U * (B * V)) with (Zpos mx * (A * B) * (U * V)) by ring.
    rewrite Hm. ring.
Qed.

(** ** The nested builtins against the clamp of the specification *)

Lemma xcompare_lt_trans (x y z : xnum) :
  xcompare x y = Some Lt -> xcompare y z = Some Lt -> xcompare x z = Some Lt.
Proof.
  destruct x as [|[|]|m1 e1], y as [|[|]|m2 e2], z as [|[|]|m3 e3];
    cbn [xcompare]; intros H1 H2; try discriminate; try reflexivity.
  set (c := Z.min e1 (Z.min e2 e3)).
  rewrite (dyadic_compare_shift m1 e1 m2 e2 c) in H1 by (subst c; lia).
  rewrite (dyadic_compare_shift m2 e2 m3 e3 c) in H2 by (subst c; lia).
  rewrite (dyadic_compare_shift m1 e1 m3 e3 c) by (subst c; lia).
  injection H1 as H1. injection H2 as H2. f_equal.
  clearbody c.
  pose proof (proj1 (Z.compare_lt_iff _ _) H1) as L1.
  pose proof (proj1 (Z.compare_lt_iff _ _) H2) as L2.
  apply Z.compare_lt_iff. lia.
Qed.

Lemma py_compare_defined (x : spec_float) (s : bool) (m : positive) (e : Z) :
  x <> S754_nan ->
  exists c, py_compare (PFloat x) (PFloat (S754_finite s m e)) = Some c.
Proof.
  intros Hx. unfold py_compare. cbn [xnum_of xnum_of_float].
  destruct x as [sx|sx| |sx mx ex]; [| |contradiction|]; cbn; eauto.
Qed.

(** On a sum that is a number, rounding what [max(lo, min(hi, x))]
    returns and rounding the clamp of [x] give the same float: the two
    differ only where [x] equals a bound, and then in the representation
    of that bound alone. *)
Lemma clamp_round_agree (lo hi : pyval) (x : spec_float) (nd : Z) :
  (exists s m e, lo = PFloat (S754_finite s m e)) ->
  (exists s m e, hi = PFloat (S754_finite s m e)) ->
  py_lt lo hi = true ->
  x <> S754_nan ->
  py_round (py_max lo (py_min hi (PFloat x))) nd
  = py_round (clamp (PFloat x) lo hi) nd.
Proof.
  intros (sl & ml & el & ->) (sh & mh & eh & ->) Hlh Hx.
  assert (Hlh' : py_compare (PFloat (S754_finite sl ml el))
                            (PFloat (S754_finite sh mh eh)) = Some Lt).
  { unfold py_lt in Hlh. destruct (py_compare _ _) as [[| |]|]; congruence. }
  assert (Hhl : py_gt (PFloat (S754_finite sh mh eh))
                      (PFloat (S754_finite sl ml el)) = true).
  { unfold py_gt. rewrite py_compare_antisym, Hlh'. reflexivity. }
  destruct (py_compare_defined x sh mh eh Hx) as [c1 C1].
  destruct (py_compare_defined x sl ml el Hx) as [c2 C2].
  assert (Htr : c2 = Lt -> c1 = Lt).
  { intros ->. pose proof (xcompare_lt_trans _ _ _ C2 Hlh') as T.
    unfold py_compare in C1. rewrite C1 in T. congruence. }
  assert (E1 : c1 = Eq -> F64.round x nd = F64.round (S754_finite sh mh eh) nd).
  { intros ->. apply round_respects_eq. unfold py_eq. now rewrite C1. }
  assert (E2 : c2 = Eq -> F64.round x nd = F64.round (S754_finite sl ml el) nd).
  { intros ->. apply round_respects_eq. unfold py_eq. now rewrite C2. }
  assert (A : py_lt (PFloat x) (PFloat (S754_finite sh mh eh))
              = match c1 with Lt => true | _ => false end)
    by (unfold py_lt; now rewrite C1).
  assert (F : py_gt (PFloat x) (PFloat (S754_finite sh mh eh))
              = match c1 with Gt => true | _ => false end)
    by (unfold py_gt; now rewrite C1).
  assert (B : py_gt (PFloat x) (PFloat (S754_finite sl ml el))
              = match c2 with Gt => true | _ => false end)
    by (unfold py_gt; now rewrite C2).
  assert (D : py_lt (PFloat x) (PFloat (S754_finite sl ml el))
              = match c2 with Lt => true | _ => false end)
    by (unfold py_lt; now rewrite C2).
  unfold py_min, clamp. rewrite A, D, F.
  destruct c1, c2; try (specialize (Htr eq_refl); discriminate);
    unfold py_max; rewrite ?B, ?Hhl; cbn [py_round];
    rewrite ?E1, ?E2 by reflexivity; reflexivity.
Qed.

Section UpdateClaims.

Context {E : Env}.

Lemma in_range_not_nan (c : Config) (v : pyval) :
  in_range c v = true -> py_float v <> S754_nan.
Proof.
  unfold in_range, py_le, py_compare. intros H.
  destruct v as [z|f]; cbn [py_float]; [apply of_Z_not_nan|].
  intros ->. cbn [xnum_of xnum_of_float] in H.
  destruct (xnum_of (cfg_min c)); discriminate.
Qed.

(** The drift of a temperature or humidity sensor lies within
    [[-drift_max, +drift_max]] and is finite. *)
Lemma drift_in_range (U : uniform_contract E) (t : string) (c : Config) (g : rng) :
  dict_get SENSOR_TYPES t = Ok c -> t <> "motion"%string ->
  py_le (py_neg (cfg_drift_max c))
        (PFloat (fst (random_uniform (py_neg (cfg_drift_max c)) (cfg_drift_max c) g)))
    = true /\
  py_le (PFloat (fst (random_uniform (py_neg (cfg_drift_max c)) (cfg_drift_max c) g)))
        (cfg_drift_max c) = true /\
  is_finite (fst (random_uniform (py_neg (cfg_drift_max c)) (cfg_drift_max c) g))
    = true.
Proof.
  intros Hc Hm. apply sensor_types_cases in Hc.
  destruct Hc as [Hc|[Hc|[Hc|[]]]]; injection Hc as <- <-;
    cbn [cfg_drift_max py_neg]; [| |congruence].
  - destruct (U (F64.opp (F64.literal 5 1)) (F64.literal 5 1) g eq_refl) as [L H].
    repeat split; try assumption.
    eapply between_is_finite; [| |exact L|exact H]; reflexivity.
  - destruct (U (F64.opp (F64.literal 20 1)) (F64.literal 20 1) g eq_refl) as [L H].
    repeat split; try assumption.
    eapply between_is_finite; [| |exact L|exact H]; reflexivity.
Qed.

Lemma continuous_bounds (t : string) (c : Config) :
  dict_get SENSOR_TYPES t = Ok c -> t <> "motion"%string ->
  (exists s m e, cfg_min c = PFloat (S754_finite s m e)) /\
  (exists s m e, cfg_max c = PFloat (S754_finite s m e)) /\
  py_lt (cfg_min c) (cfg_max c) = true.
Proof.
  intros Hc Hm. apply sensor_types_cases in Hc.
  destruct Hc as [Hc|[Hc|[Hc|[]]]]; injection Hc as <- <-;
    cbn [cfg_min cfg_max]; [| |congruence];
    (split; [|split]); try (do 3 eexists; vm_compute; reflexivity);
    vm_compute; reflexivity.
Qed.

(** C2: one call of [update_sensor_values] draws, for a well-formed
    temperature or humidity sensor with current value [v], one sample
    [delta] of [random.uniform(-drift_max, drift_max)], which lies within
    [[-drift_max, +drift_max]], and stores
    [round(clamp(v + delta, min, max), precision)]. *)
Theorem continuous_update_formula (U : uniform_contract E)
    (self : SensorSimulator) (w : World) (pre post : list Sensor) (s : Sensor) :
  sensors self = (pre ++ s :: post)%list ->
  sensor_ok s ->
  s_type s <> "motion"%string ->
  let c := s_config s in
  let delta :=
    fst (random_uniform (py_neg (cfg_drift_max c)) (cfg_drift_max c)
                        (snd (update_loop pre (w_rng w)))) in
  py_le (py_neg (cfg_drift_max c)) (PFloat delta) = true /\
  py_le (PFloat delta) (cfg_drift_max c) = true /\
  exists s',
    nth_error (sensors (fst (update_sensor_values self w))) (length pre) = Some s' /\
    s_current_value s'
    = py_round (clamp (py_add (s_current_value s) (PFloat delta))
                      (cfg_min c) (cfg_max c))
               (cfg_precision c).
Proof.
  intros Hf (Hc & Hr & _) Hm c delta.
  destruct (drift_in_range U _ _ (snd (update_loop pre (w_rng w))) Hc Hm)
    as (L & H & Fd).
  fold c delta in L, H, Fd.
  split; [exact L|]. split; [exact H|].
  eexists. split; [exact (update_sensor_values_at self w pre post s Hf)|].
  unfold update_sensor.
  destruct (String.eqb_spec (s_type s) "motion") as [Em|_]; [contradiction|].
  fold c.
  destruct (random_uniform (py_neg (cfg_drift_max c)) (cfg_drift_max c) _)
    as [d g'] eqn:Hd.
  cbn [fst] in delta. subst delta.
  cbn [fst set_current_value s_current_value].
  destruct (continuous_bounds _ _ Hc Hm) as (Blo & Bhi & Blt).
  rewrite py_add_float.
  apply clamp_round_agree; try assumption.
  apply add_not_nan; [|exact Fd].
  now apply (in_range_not_nan (s_config s)).
Qed.

(** C6, as the code has it: after a call of [update_sensor_values] in a
    run, the value of every temperature or humidity sensor is the float
    that the division of an integer [n] by [10^precision] returns, the
    double nearest to a decimal with [precision] digits after the point. *)
Theorem updated_value_is_a_rounded_decimal (self : SensorSimulator) (w : World)
    (i : nat) (s' : Sensor) :
  reachable self ->
  nth_error (sensors (fst (update_sensor_values self w))) i = Some s' ->
  s_type s' <> "motion"%string ->
  exists n : Z,
    s_current_value s'
    = PFloat (F64.of_decimal false n (- cfg_precision (s_config s'))).
Proof.
  intros R Hi Hm. rewrite update_sensor_values_sensors in Hi.
  destruct (update_loop_nth _ _ _ _ Hi) as (s & gi & Hs & ->).
  destruct (reachable_static self R i s Hs) as [Hc _].
  destruct (update_sensor_frame s gi) as (_ & Ft & _ & Fc).
  rewrite Ft in Hm. rewrite Fc.
  unfold update_sensor.
  destruct (String.eqb_spec (s_type s) "motion") as [Em|_]; [contradiction|].
  destruct (random_uniform _ _ gi) as [d g'].
  cbn [fst set_current_value s_current_value].
  destruct (continuous_step _ _ (s_current_value s) d Hc Hm) as (n & -> & _).
  now exists n.
Qed.

End UpdateClaims.

(** ** Runs on the concrete environment *)

Example round_half_to_even :
  F64.round (F64.literal 2025 2) 1 = F64.literal 202 1 /\
  F64.round (F64.literal 2675 3) 2 = F64.literal 267 2 /\
  F64.round (F64.literal 25 1) 0 = F64.literal 2 0.
Proof. repeat split; vm_compute; reflexivity. Qed.

Example exact_multiple_examples :
  exact_multiple (PFloat (F64.literal 320 1)) 1 = true /\
  exact_multiple (PFloat (F64.literal 325 1)) 1 = true /\
  exact_multiple (PFloat (F64.literal 321 1)) 1 = false /\
  exact_multiple (PInt 1) 0 = true.
Proof. repeat split; vm_compute; reflexivity. Qed.

Lemma demo_reachable (n : Z) :
  (exists self g, Demo.simulator "localhost" n = Ok (self, g)) ->
  reachable (E := Demo.env) (Demo.sim n).
Proof.
  intros (self & g & H).
  apply (@reach_init Demo.env "localhost"%string 1883 n
                     (PFloat (F64.literal 10 1)) 0%nat (Demo.sim n) g).
  unfold Demo.sim. unfold Demo.simulator in *. now rewrite H.
Qed.

Lemma demo_reachable_4 : reachable (E := Demo.env) (Demo.sim 4).
Proof. apply demo_reachable. do 2 eexists. vm_compute. reflexivity. Qed.

Lemma values_stay_within_range_witness :
  Forall (fun s =>
            dict_get SENSOR_TYPES (s_type s) = Ok (s_config s) /\
            py_le (cfg_min (s_config s)) (s_current_value s) = true /\
            py_le (s_current_value s) (cfg_max (s_config s)) = true /\
            (s_type s = "motion"%string ->
             s_current_value s = PInt 0 \/ s_current_value s = PInt 1))
         (sensors (fst (update_sensor_values (E := Demo.env)
                                             (Demo.sim 4) (Demo.world 11)))).
Proof.
  apply (@values_stay_within_range Demo.env demo_uniform_contract).
  apply reach_update. exact demo_reachable_4.
Defined.

Lemma demo_sensor_ok_temperature : sensor_ok (nth 0 (sensors (Demo.sim 4)) Demo.sensor_203).
Proof.
  repeat split; try (vm_compute; reflexivity).
  intros H. vm_compute in H. discriminate.
Qed.

Lemma continuous_update_formula_witness :
  let s := nth 0 (sensors (Demo.sim 4)) Demo.sensor_203 in
  exists s',
    nth_error (sensors (fst (update_sensor_values (E := Demo.env)
                                                  (Demo.sim 4) (Demo.world 11)))) 0
    = Some s' /\
    s_current_value s'
    = py_round (clamp (py_add (s_current_value s)
                              (PFloat (fst (Demo.random_uniform
                                              (py_neg (cfg_drift_max (s_config s)))
                                              (cfg_drift_max (s_config s)) 11%nat))))
                      (cfg_min (s_config s)) (cfg_max (s_config s)))
               (cfg_precision (s_config s)).
Proof.
  intros s.
  apply (@continuous_update_formula Demo.env demo_uniform_contract
           (Demo.sim 4) (Demo.world 11) [] (skipn 1 (sensors (Demo.sim 4))) s).
  - vm_compute. reflexivity.
  - exact demo_sensor_ok_temperature.
  - vm_compute. discriminate.
Defined.

Lemma motion_flips_below_threshold_witness :
  exists s',
    nth_error (sensors (fst (update_sensor_values (E := Demo.env)
                                                  (Demo.sim 4) (Demo.world 11)))) 1
    = Some s' /\
    s_current_value s' = PInt 1.
Proof.
  destruct (@motion_flips_below_threshold Demo.env (Demo.sim 4) (Demo.world 11)
              (firstn 1 (sensors (Demo.sim 4)))
              (skipn 2 (sensors (Demo.sim 4)))
              (nth 1 (sensors (Demo.sim 4)) Demo.sensor_203)
              ltac:(vm_compute; reflexivity) ltac:(vm_compute; reflexivity))
    as (s' & Hn & Hv).
  exists s'. split; [exact Hn|].
  vm_compute in Hv. apply Hv. reflexivity.
Defined.

Lemma connect_failure_returns_at_once_witness :
  fst (run (E := Demo.env) (mkInterrupt 3 AtSleep)
           (Demo.sim_unreachable 2) (Demo.world 7))
  = Demo.sim_unreachable 2 /\
  w_rng (snd (run (E := Demo.env) (mkInterrupt 3 AtSleep)
                  (Demo.sim_unreachable 2) (Demo.world 7))) = 7%nat.
Proof.
  destruct (@connect_failure_returns_at_once Demo.env (mkInterrupt 3 AtSleep)
              (Demo.sim_unreachable 2) (Demo.world 7) "Connection refused"%string
              ltac:(vm_compute; reflexivity))
    as (H1 & _ & _ & H2 & _).
  split; [exact H1|exact H2].
Defined.

Lemma publish_emits_one_message_per_sensor_witness :
  exists msgs,
    published (client (fst (publish_sensor_data (E := Demo.env)
                                                (Demo.sim 4) (Demo.world 11))))
      = (published (client (Demo.sim 4)) ++ msgs)%list /\
    length msgs = 4%nat.
Proof.
  destruct (@publish_emits_one_message_per_sensor Demo.env demo_uniform_contract
              (Demo.sim 4) (Demo.world 11) demo_reachable_4)
    as (msgs & Hp & Hl & _).
  exists msgs. split; [exact Hp|]. rewrite Hl. vm_compute. reflexivity.
Defined.

Lemma initialization_builds_the_fleet_witness :
  exists fleet g',
    _initialize_sensors (E := Demo.env) 3 0%nat = Ok (fleet, g') /\
    Z.of_nat (length fleet) = 3.
Proof.
  destruct (@initialization_builds_the_fleet Demo.env demo_randbelow_contract
              demo_uniform_contract 3 0%nat ltac:(lia))
    as (fleet & g' & Hi & Hl & _).
  exists fleet, g'. split; assumption.
Defined.

Lemma ids_and_topics_distinct_witness :
  NoDup (map s_id (sensors (Demo.sim 4))).
Proof.
  destruct (@ids_and_topics_distinct Demo.env (Demo.sim 4) (Demo.world 11)
              demo_reachable_4) as (_ & H & _).
  exact H.
Defined.

Lemma updated_value_is_a_rounded_decimal_witness :
  let s' := nth 0 (sensors (fst (update_sensor_values (E := Demo.env)
                                                      (Demo.sim 4) (Demo.world 11))))
                Demo.sensor_203 in
  exists n : Z,
    s_current_value s'
    = PFloat (F64.of_decimal false n (- cfg_precision (s_config s'))).
Proof.
  intros s'.
  apply (@updated_value_is_a_rounded_decimal Demo.env (Demo.sim 4) (Demo.world 11)
           0%nat s' demo_reachable_4).
  - vm_compute. reflexivity.
  - vm_compute. discriminate.
Defined.

(** C6, as the specification words it, fails: the first sensor of the
    four-sensor fleet is a temperature sensor at 32.0; the update draws the
    drift 0.08 and stores [round(32.08, 1)], the double nearest to 32.1,
    whose exact value is not a multiple of [1/10]. *)
Lemma updated_value_not_exact_multiple :
  exists s',
    nth_error (sensors (fst (update_sensor_values (E := Demo.env)
                                                  (Demo.sim 4) (Demo.world 11)))) 0
    = Some s' /\
    s_type s' = "temperature"%string /\
    s_current_value s' = PFloat (F64.literal 321 1) /\
    exact_multiple (s_current_value s') (cfg_precision (s_config s')) = false.
Proof. eexists. repeat split; vm_compute; reflexivity. Qed.

(** * Further properties of the code *)

(** ** What each method leaves alone *)

Section Frames.

Context {E : Env}.

Lemma update_sensor_values_frame (self : SensorSimulator) (w : World) :
  client (fst (update_sensor_values self w)) = client self /\
  mqtt_host (fst (update_sensor_values self w)) = mqtt_host self /\
  mqtt_port (fst (update_sensor_values self w)) = mqtt_port self /\
  num_sensors (fst (update_sensor_values self w)) = num_sensors self /\
  interval (fst (update_sensor_values self w)) = interval self /\
  w_clock (snd (update_sensor_values self w)) = w_clock w /\
  w_stdout (snd (update_sensor_values self w)) = w_stdout w /\
  w_rng (snd (update_sensor_values self w))
  = snd (update_loop (sensors self) (w_rng w)).
Proof.
  unfold update_sensor_values.
  destruct (update_loop (sensors self) (w_rng w)) as [l g]. cbn. auto 10.
Qed.

(** X3: [update_sensor_values] changes the sensors and advances the
    generator and nothing else: the client with its messages, the
    constructor's arguments, the clock and the output are the ones it was
    given. *)
Theorem update_touches_values_and_generator_only
    (self : SensorSimulator) (w : World) :
  client (fst (update_sensor_values self w)) = client self /\
  mqtt_host (fst (update_sensor_values self w)) = mqtt_host self /\
  mqtt_port (fst (update_sensor_values self w)) = mqtt_port self /\
  num_sensors (fst (update_sensor_values self w)) = num_sensors self /\
  interval (fst (update_sensor_values self w)) = interval self /\
  w_clock (snd (update_sensor_values self w)) = w_clock w /\
  w_stdout (snd (update_sensor_values self w)) = w_stdout w /\
  w_rng (snd (update_sensor_values self w))
  = snd (update_loop (sensors self) (w_rng w)).
Proof. exact (update_sensor_values_frame self w). Qed.

Lemma publish_loop_fields (todo : list Sensor) (ts : string)
    (self : SensorSimulator) (w : World) :
  mqtt_host (fst (publish_loop todo ts self w)) = mqtt_host self /\
  mqtt_port (fst (publish_loop todo ts self w)) = mqtt_port self /\
  num_sensors (fst (publish_loop todo ts self w)) = num_sensors self /\
  interval (fst (publish_loop todo ts self w)) = interval self.
Proof.
  revert self w. induction todo as [|s todo IH]; intros self w; cbn [publish_loop].
  - cbn. auto.
  - destruct (IH (set_client self
                   (client_publish (client self) (topic_of s)
                                   (json_dumps (payload_of s ts))))
                 (print ("Published to " ++ topic_of s ++ ": "
                         ++ dict_str (payload_of s ts)) w))
      as (H1 & H2 & H3 & H4).
    rewrite H1, H2, H3, H4. cbn. auto.
Qed.

Lemma starts_with_published (ts : string) (l : list Sensor) :
  Forall2 (fun (m : string * string) (line : string) =>
             exists rest, line = ("Published to " ++ fst m ++ ": " ++ rest)%string)
          (map (message_of ts) l) (map (line_of ts) l).
Proof.
  induction l as [|s l IH]; cbn [map]; constructor; [|exact IH].
  unfold line_of, message_of. cbn [fst]. eauto.
Qed.

Lemma publish_sensor_data_frame (self : SensorSimulator) (w : World) :
  w_rng (snd (publish_sensor_data self w)) = w_rng w /\
  connected (client (fst (publish_sensor_data self w))) = connected (client self) /\
  mqtt_host (fst (publish_sensor_data self w)) = mqtt_host self /\
  mqtt_port (fst (publish_sensor_data self w)) = mqtt_port self /\
  num_sensors (fst (publish_sensor_data self w)) = num_sensors self /\
  interval (fst (publish_sensor_data self w)) = interval self /\
  exists msgs lines,
    published (client (fst (publish_sensor_data self w)))
      = (published (client self) ++ msgs)%list /\
    w_stdout (snd (publish_sensor_data self w)) = (w_stdout w ++ lines)%list /\
    Forall2 (fun (m : string * string) (line : string) =>
               exists rest, line = ("Published to " ++ fst m ++ ": " ++ rest)%string)
            msgs lines.
Proof.
  unfold publish_sensor_data.
  destruct (now_isoformat (w_clock w)) as [ts k'].
  destruct (publish_loop_spec (sensors self) ts self (set_clock w k'))
    as (_ & Hc & Hp & Hr & _ & Ho).
  destruct (publish_loop_fields (sensors self) ts self (set_clock w k'))
    as (F1 & F2 & F3 & F4).
  repeat (split; [assumption|]).
  exists (map (message_of ts) (sensors self)), (map (line_of ts) (sensors self)).
  split; [exact Hp|]. split; [exact Ho|]. apply starts_with_published.
Qed.

(** X4: [publish_sensor_data] draws no random number and leaves the
    connection flag and the constructor's arguments alone; it prints one
    line per message, in the order of the messages, and the line of a
    message starts with [Published to <topic>: ]. *)
Theorem publish_logs_what_it_sends (self : SensorSimulator) (w : World) :
  w_rng (snd (publish_sensor_data self w)) = w_rng w /\
  connected (client (fst (publish_sensor_data self w))) = connected (client self) /\
  mqtt_host (fst (publish_sensor_data self w)) = mqtt_host self /\
  mqtt_port (fst (publish_sensor_data self w)) = mqtt_port self /\
  num_sensors (fst (publish_sensor_data self w)) = num_sensors self /\
  interval (fst (publish_sensor_data self w)) = interval self /\
  exists msgs lines,
    published (client (fst (publish_sensor_data self w)))
      = (published (client self) ++ msgs)%list /\
    w_stdout (snd (publish_sensor_data self w)) = (w_stdout w ++ lines)%list /\
    Forall2 (fun (m : string * string) (line : string) =>
               exists rest, line = ("Published to " ++ fst m ++ ": " ++ rest)%string)
            msgs lines.
Proof. exact (publish_sensor_data_frame self w). Qed.

End Frames.

(** ** A whole run *)

Section WholeRun.

Context {E : Env}.

(** One update followed by one publication: the sensors keep their
    number, the client gets one message and the output one line per
    sensor. *)
Lemma tick_spec (self : SensorSimulator) (w : World) :
  let r := publish_sensor_data (fst (update_sensor_values self w))
                               (snd (update_sensor_values self w)) in
  length (sensors (fst r)) = length (sensors self) /\
  interval (fst r) = interval self /\
  connected (client (fst r)) = connected (client self) /\
  exists msgs lines,
    published (client (fst r)) = (published (client self) ++ msgs)%list /\
    w_stdout (snd r) = (w_stdout w ++ lines)%list /\
    length msgs = length (sensors self) /\
    length lines = length (sensors self) /\
    Forall (fun line => exists rest, line = ("Published to " ++ rest)%string) lines.
Proof.
  intros r. subst r.
  destruct (update_sensor_values_frame self w)
    as (Uc & _ & _ & _ & Ui & _ & Uo & _).
  set (self1 := fst (update_sensor_values self w)) in *.
  set (w1 := snd (update_sensor_values self w)) in *.
  pose proof (update_sensor_values_length self w) as Ul. fold self1 in Ul.
  pose proof (publish_sensor_data_sensors self1 w1) as Ps.
  unfold publish_sensor_data in *.
  destruct (now_isoformat (w_clock w1)) as [ts k'].
  destruct (publish_loop_spec (sensors self1) ts self1 (set_clock w1 k'))
    as (_ & Hc & Hp & _ & _ & Ho).
  destruct (publish_loop_fields (sensors self1) ts self1 (set_clock w1 k'))
    as (_ & _ & _ & F4).
  rewrite Ps, Ul, F4, Ui, Hc, Uc. repeat (split; [reflexivity|]).
  exists (map (message_of ts) (sensors self1)), (map (line_of ts) (sensors self1)).
  rewrite Hp, Ho, Uc. cbn [set_clock w_stdout]. rewrite Uo, !length_map, Ul.
  repeat (split; [reflexivity|]).
  apply Forall_forall. intros line Hin. apply in_map_iff in Hin.
  destruct Hin as (s & <- & _). unfold line_of. eauto.
Qed.

(** The loop up to the interrupt. *)
Lemma run_loop_spec (ticks : nat) (at_ : loop_point)
    (self : SensorSimulator) (w : World) :
  connected (client (fst (run_loop ticks at_ self w))) = connected (client self) /\
  exists msgs lines,
    published (client (fst (run_loop ticks at_ self w)))
      = (published (client self) ++ msgs)%list /\
    w_stdout (snd (run_loop ticks at_ self w)) = (w_stdout w ++ lines)%list /\
    length msgs = (cycles (mkInterrupt ticks at_) * length (sensors self))%nat /\
    length lines = (cycles (mkInterrupt ticks at_) * length (sensors self))%nat /\
    Forall (fun line => exists rest, line = ("Published to " ++ rest)%string) lines.
Proof.
  unfold cycles. cbn [int_at int_ticks].
  revert self w. induction ticks as [|n IH]; intros self w; cbn [run_loop].
  - destruct at_.
    + split; [reflexivity|]. exists [], []. rewrite !app_nil_r. cbn. auto.
    + destruct (update_sensor_values_frame self w)
        as (Uc & _ & _ & _ & _ & _ & Uo & _).
      rewrite Uc, Uo. split; [reflexivity|].
      exists [], []. rewrite !app_nil_r. cbn. auto.
    + pose proof (tick_spec self w) as T. cbn zeta in T.
      destruct (update_sensor_values self w) as [self1 w1]. cbn [fst snd] in T.
      destruct T as (_ & _ & Tc & msgs & lines & Tp & To & Lm & Ll & Fl).
      split; [exact Tc|]. exists msgs, lines.
      rewrite Nat.mul_1_l. auto 10.
  - pose proof (tick_spec self w) as T. cbn zeta in T.
    destruct (update_sensor_values self w) as [self1 w1]. cbn [fst snd] in T.
    destruct (publish_sensor_data self1 w1) as [self2 w2]. cbn [fst snd] in T.
    destruct T as (Tl & _ & Tc & msgs & lines & Tp & To & Lm & Ll & Fl).
    destruct (IH self2 (set_clock w2 (time_sleep (interval self2) (w_clock w2))))
      as (Ic & msgs' & lines' & Ip & Io & Im & Il & Fl').
    rewrite Ic, Ip, Io, Tc, Tp. cbn [set_clock w_stdout]. rewrite To.
    split; [reflexivity|].
    exists (msgs ++ msgs')%list, (lines ++ lines')%list.
    rewrite <- !app_assoc, !length_app, Im, Il, Lm, Ll, Tl.
    repeat (split; [reflexivity|]).
    split; [destruct at_; lia|]. split; [destruct at_; lia|].
    apply Forall_app. now split.
Qed.

(** A run that connects: the client at the end, the messages and the
    output. *)
Lemma run_connected_spec (int : Interrupt) (self : SensorSimulator) (w : World) :
  broker_refuses (mqtt_host self) (mqtt_port self) = None ->
  connected (client (fst (run int self w))) = false /\
  exists msgs lines,
    published (client (fst (run int self w)))
      = (published (client self) ++ msgs)%list /\
    length msgs = (cycles int * length (sensors self))%nat /\
    w_stdout (snd (run int self w))
      = (w_stdout w
         ++ [("Connected to MQTT broker at " ++ mqtt_host self ++ ":"
              ++ str_int (mqtt_port self))%string]
         ++ lines
         ++ ["Simulator stopped by user"; "Disconnected from MQTT broker"]%string)%list /\
    length lines = (cycles int * length (sensors self))%nat /\
    Forall (fun line => exists rest, line = ("Published to " ++ rest)%string) lines.
Proof.
  intros H. unfold run, connect. rewrite H. cbn [negb].
  set (self0 := set_client self (mkClient true (published (client self)))).
  set (w0 := print _ w).
  destruct (run_loop_spec (int_ticks int) (int_at int) self0 w0)
    as (_ & msgs & lines & Hp & Ho & Hm & Hl & Fl).
  destruct (run_loop (int_ticks int) (int_at int) self0 w0) as [self1 w1].
  cbn [fst snd set_client client connected published print w_stdout] in *.
  split; [reflexivity|]. exists msgs, lines.
  split; [exact Hp|].
  split; [rewrite Hm; now destruct int|].
  rewrite Ho. subst w0. cbn [print w_stdout].
  rewrite <- !app_assoc. cbn [app].
  split; [reflexivity|]. split; [|exact Fl].
  rewrite Hl. now destruct int.
Qed.



End WholeRun.

(** ** Construction *)

Section Construction.

Context {E : Env}.

Lemma dict_get_of_key {A : Type} (d : list (string * A)) (k : string) :
  In k (dict_keys d) -> exists v, dict_get d k = Ok v.
Proof.
  induction d as [|[k' v'] d IH]; cbn [dict_keys map fst In dict_get].
  - contradiction.
  - intros [->|Hin].
    + rewrite String.eqb_refl. eauto.
    + destruct (String.eqb k' k); eauto.
Qed.

Lemma initialize_sensor_raises (i : Z) (g : rng) (e : exn) :
  initialize_sensor i g = Raise e -> e = IndexError.
Proof.
  unfold initialize_sensor, bind, random_choice, lift, ret.
  destruct (randbelow (length (dict_keys SENSOR_TYPES)) g) as [k g1].
  destruct (nth_error (dict_keys SENSOR_TYPES) k) as [t|] eqn:Hk;
    [|now intros [= <-]].
  destruct (dict_get_of_key SENSOR_TYPES t (nth_error_In _ _ Hk)) as [c ->].
  destruct (random_uniform (cfg_min c) (cfg_max c) g1) as [u g2].
  destruct (String.eqb t "motion"); [|discriminate].
  destruct (randbelow (length [PInt 0; PInt 1]) g2) as [j g3].
  destruct (nth_error [PInt 0; PInt 1] j); [discriminate|now intros [= <-]].
Qed.

Lemma initialize_loop_raises (idx : list Z) (acc : list Sensor) (g : rng) (e : exn) :
  initialize_loop idx acc g = Raise e -> e = IndexError.
Proof.
  revert acc g. induction idx as [|i idx IH]; intros acc g; cbn [initialize_loop].
  - discriminate.
  - unfold bind at 1.
    destruct (initialize_sensor i g) as [[s g1]|e'] eqn:Hs.
    + apply IH.
    + intros [= <-]. now apply initialize_sensor_raises in Hs.
Qed.

(** X10: whatever the generator returns, building a simulator either
    succeeds or raises [IndexError], out of [random.choice] when
    [_randbelow] leaves its bound; the lookup of the chosen type in
    [SENSOR_TYPES] never raises [KeyError]. *)
Theorem construction_raises_only_IndexError (host : string) (port n : Z)
    (itv : pyval) (g : rng) (e : exn) :
  __init__ host port n itv g = Raise e -> e = IndexError.
Proof.
  unfold __init__, bind, _initialize_sensors.
  destruct (initialize_loop (py_range n) [] g) as [[fleet g1]|e'] eqn:H.
  - discriminate.
  - intros [= <-]. now apply initialize_loop_raises in H.
Qed.

Lemma init_fields (host : string) (port n : Z) (itv : pyval) (g g' : rng)
    (self : SensorSimulator) :
  __init__ host port n itv g = Ok (self, g') ->
  mqtt_host self = host /\ mqtt_port self = port /\ num_sensors self = n /\
  interval self = itv /\ client self = mkClient false [].
Proof.
  unfold __init__, bind, ret.
  destruct (_initialize_sensors n g) as [[fleet g1]|]; [|discriminate].
  intros [= <- <-]. cbn. auto.
Qed.

(** X6: in every simulator of a run the fleet has [num_sensors] sensors,
    none for a negative count: the methods neither add nor remove sensors
    nor touch the count the constructor stored. *)
Theorem fleet_size_is_num_sensors (self : SensorSimulator) :
  reachable self -> length (sensors self) = Z.to_nat (num_sensors self).
Proof.
  induction 1 as [host port n itv g self g' Hi|self w _ IH|self w _ IH|self w _ IH].
  - destruct (init_fields _ _ _ _ _ _ _ Hi) as (_ & _ & -> & _).
    apply init_sensors in Hi. now apply initialize_sensors_nth in Hi.
  - rewrite connect_sensors. unfold connect.
    destruct (broker_refuses _ _); exact IH.
  - rewrite update_sensor_values_length.
    now destruct (update_sensor_values_frame self w) as (_ & _ & _ & -> & _).
  - rewrite publish_sensor_data_sensors.
    now destruct (publish_sensor_data_frame self w) as (_ & _ & _ & _ & -> & _).
Qed.

(** X5: for a count that is zero or negative the constructor draws no
    random number and builds an empty fleet, and a run of that simulator
    publishes nothing, whether the broker accepts the connection or not. *)
Theorem empty_fleet_publishes_nothing (host : string) (port n : Z)
    (itv : pyval) (g : rng) :
  n <= 0 ->
  exists self,
    __init__ host port n itv g = Ok (self, g) /\
    sensors self = [] /\
    forall int w, published (client (fst (run int self w))) = [].
Proof.
  intros Hn.
  exists (mkSim host port n itv (mkClient false []) []).
  split; [|split; [reflexivity|]].
  - unfold __init__, bind, ret, _initialize_sensors, py_range.
    replace (Z.to_nat n) with 0%nat by lia. reflexivity.
  - intros int w.
    destruct (broker_refuses host port) as [e|] eqn:Hb.
    + unfold run, connect. cbn [mqtt_host mqtt_port]. rewrite Hb. reflexivity.
    + destruct (run_connected_spec int
                  (mkSim host port n itv (mkClient false []) []) w Hb)
        as (_ & msgs & _ & -> & Hl & _).
      cbn [sensors length] in Hl. rewrite Nat.mul_0_r in Hl.
      destruct msgs; [reflexivity|discriminate].
Qed.


(** X12: when the broker refuses the connection, the script body still
    builds the fleet first, drawing its random numbers, and then stops:
    the client holds no message and is not connected, and the output is
    the single line that reports the failure. *)
Theorem main_stops_on_refusal (B : randbelow_contract E)
    (args : Args) (int : Interrupt) (w : World) (e : string) :
  broker_refuses (arg_host args) (arg_port args) = Some e ->
  exists self w' fleet g',
    main args int w = Ok (self, w') /\
    _initialize_sensors (arg_sensors args) (w_rng w) = Ok (fleet, g') /\
    sensors self = fleet /\
    w_rng w' = g' /\
    client self = mkClient false [] /\
    w_stdout w'
    = (w_stdout w ++ [("Failed to connect to MQTT broker: " ++ e)%string])%list.
Proof.
  intros Hb. unfold main.
  destruct (initialize_loop_total B (py_range (arg_sensors args)) [] (w_rng w))
    as (fleet & g' & Hf).
  assert (Hi : __init__ (arg_host args) (arg_port args) (arg_sensors args)
                        (arg_interval args) (w_rng w)
               = Ok (mkSim (arg_host args) (arg_port args) (arg_sensors args)
                           (arg_interval args) (mkClient false []) fleet, g')).
  { unfold __init__, bind, ret, _initialize_sensors. now rewrite Hf. }
  rewrite Hi. unfold run, connect. cbn [mqtt_host mqtt_port]. rewrite Hb.
  cbn [negb]. do 4 eexists. split; [reflexivity|].
  split; [exact Hf|]. cbn. auto.
Qed.

End Construction.

(** ** The values an update can store *)

Lemma float_same_eq (a b : spec_float) : float_same a b = true -> a = b.
Proof.
  destruct a as [s|s| |s m e], b as [s'|s'| |s' m' e']; cbn [float_same];
    try discriminate; try reflexivity.
  - intros H. apply Bool.eqb_prop in H. now subst.
  - intros H. apply Bool.eqb_prop in H. now subst.
  - intros H. apply andb_true_iff in H. destruct H as [H He].
    apply andb_true_iff in H. destruct H as [Hs Hm].
    apply Bool.eqb_prop in Hs. apply Pos.eqb_eq in Hm. apply Z.eqb_eq in He.
    now subst.
Qed.

Lemma rounding_fixpoints_spec (a n : Z) (len : nat) :
  rounding_fixpoints a len = true ->
  a <= n < a + Z.of_nat len ->
  F64.round (F64.of_decimal false n (- 1)) 1 = F64.of_decimal false n (- 1).
Proof.
  intros T Hn. unfold rounding_fixpoints in T. rewrite forallb_forall in T.
  apply float_same_eq. apply T. now apply in_Zseq.
Qed.

Lemma temperature_fixpoints : rounding_fixpoints 150 201 = true.
Proof. vm_compute. reflexivity. Qed.

Lemma humidity_fixpoints : rounding_fixpoints 300 501 = true.
Proof. vm_compute. reflexivity. Qed.

(** A float between two positive integral bounds is a positive finite
    float. *)
Lemma between_integral_bounds (lo hi f : spec_float) (L H kl kh : Z) :
  0 < L -> 0 <= kl -> 0 <= kh ->
  xnum_of_float lo = XFin (L * 2 ^ kl) (0 - kl) ->
  xnum_of_float hi = XFin (H * 2 ^ kh) (0 - kh) ->
  py_le (PFloat lo) (PFloat f) = true ->
  py_le (PFloat f) (PFloat hi) = true ->
  exists m e, f = S754_finite false m e.
Proof.
  intros HL Hkl Hkh Elo Ehi B1 B2. unfold py_le in B1, B2.
  rewrite (py_compare_integral_l lo L kl) in B1 by assumption.
  rewrite (py_compare_integral_r hi H kh) in B2 by assumption.
  destruct (float_between_ints f L H HL B1 B2) as (m & e & -> & _). eauto.
Qed.

(** The update of a temperature or humidity sensor, for any current
    value and any drift, with the grid the result lies on: the precision
    is one decimal and the result is the double nearest to [n / 10] for
    an integer [n] between ten times the bounds of the type, which
    rounding leaves as it is. *)
Lemma continuous_step_grid (t : string) (c : Config) (cur : pyval) (drift : spec_float) :
  dict_get SENSOR_TYPES t = Ok c -> t <> "motion"%string ->
  exists n,
    (t = "temperature"%string /\ 150 <= n <= 350 \/
     t = "humidity"%string /\ 300 <= n <= 800) /\
    cfg_precision c = 1 /\
    py_round (py_max (cfg_min c) (py_min (cfg_max c) (py_add cur (PFloat drift))))
             (cfg_precision c)
      = PFloat (F64.of_decimal false n (- 1)) /\
    in_range c (PFloat (F64.of_decimal false n (- 1))) = true /\
    F64.round (F64.of_decimal false n (- 1)) 1 = F64.of_decimal false n (- 1) /\
    exists m e, F64.of_decimal false n (- 1) = S754_finite false m e.
Proof.
  intros Hc Hm. apply sensor_types_cases in Hc.
  rewrite py_add_float. unfold in_range.
  destruct Hc as [Hc|[Hc|[Hc|[]]]]; injection Hc as <- <-;
    cbn [cfg_min cfg_max cfg_precision]; [| |congruence].
  - destruct (round_clamp_decimal (F64.literal 150 1) (F64.literal 350 1)
                (F64.add (py_float cur) drift) 15 35 49 47)
      as (n & Hn & R & B1 & B2);
      try lia; try reflexivity; try exact temperature_decimals.
    change (10 ^ 1) with 10 in Hn.
    exists n. rewrite R, B1, B2.
    split; [left; split; [reflexivity|lia]|].
    repeat (split; [reflexivity|]). split.
    + apply (rounding_fixpoints_spec 150 n 201 temperature_fixpoints). lia.
    + apply (between_integral_bounds (F64.literal 150 1) (F64.literal 350 1)
               _ 15 35 49 47); try lia; try reflexivity; assumption.
  - destruct (round_clamp_decimal (F64.literal 300 1) (F64.literal 800 1)
                (F64.add (py_float cur) drift) 30 80 48 46)
      as (n & Hn & R & B1 & B2);
      try lia; try reflexivity; try exact humidity_decimals.
    change (10 ^ 1) with 10 in Hn.
    exists n. rewrite R, B1, B2.
    split; [right; split; [reflexivity|lia]|].
    repeat (split; [reflexivity|]). split.
    + apply (rounding_fixpoints_spec 300 n 501 humidity_fixpoints). lia.
    + apply (between_integral_bounds (F64.literal 300 1) (F64.literal 800 1)
               _ 30 80 48 46); try lia; try reflexivity; assumption.
Qed.

Lemma py_le_not_lt (a b : pyval) : py_le a b = true -> py_lt b a = false.
Proof.
  unfold py_le, py_lt. rewrite (py_compare_antisym a b).
  destruct (py_compare a b) as [[| |]|]; cbn; congruence.
Qed.

Lemma py_le_not_gt (a b : pyval) : py_le a b = true -> py_gt a b = false.
Proof.
  unfold py_le, py_gt. destruct (py_compare a b) as [[| |]|]; congruence.
Qed.

Section StoredValues.

Context {E : Env}.


(** The sensors of an updated fleet of a run, one by one. *)
Lemma updated_sensor_grid (self : SensorSimulator) (w : World) (i : nat) (s' : Sensor) :
  reachable self ->
  nth_error (sensors (fst (update_sensor_values self w))) i = Some s' ->
  s_type s' <> "motion"%string ->
  dict_get SENSOR_TYPES (s_type s') = Ok (s_config s') /\
  exists n,
    (s_type s' = "temperature"%string /\ 150 <= n <= 350 \/
     s_type s' = "humidity"%string /\ 300 <= n <= 800) /\
    cfg_precision (s_config s') = 1 /\
    s_current_value s' = PFloat (F64.of_decimal false n (- 1)) /\
    in_range (s_config s') (PFloat (F64.of_decimal false n (- 1))) = true /\
    F64.round (F64.of_decimal false n (- 1)) 1 = F64.of_decimal false n (- 1) /\
    exists m e, F64.of_decimal false n (- 1) = S754_finite false m e.
Proof.
  intros R Hi Hm. rewrite update_sensor_values_sensors in Hi.
  destruct (update_loop_nth _ _ _ _ Hi) as (s & gi & Hs & ->).
  destruct (reachable_static self R i s Hs) as [Hc _].
  destruct (update_sensor_frame s gi) as (_ & Ft & _ & Fc).
  rewrite Ft in Hm. rewrite Ft, Fc. split; [exact Hc|].
  unfold update_sensor.
  destruct (String.eqb_spec (s_type s) "motion") as [Em|_]; [contradiction|].
  destruct (random_uniform _ _ gi) as [d g'].
  cbn [fst set_current_value s_current_value].
  destruct (continuous_step_grid _ _ (s_current_value s) d Hc Hm)
    as (n & H1 & H2 & -> & H4 & H5 & H6).
  exists n. auto 10.
Qed.

(** X8: after a call of [update_sensor_values] in a run, the value of a
    temperature or humidity sensor lies on a grid of tenths: it is the
    double nearest to [n / 10] for an integer [n] from 150 to 350 for a
    temperature sensor and from 300 to 800 for a humidity sensor, one of
    201 and of 501 values. *)
Theorem updated_value_lies_on_the_grid (self : SensorSimulator) (w : World)
    (i : nat) (s' : Sensor) :
  reachable self ->
  nth_error (sensors (fst (update_sensor_values self w))) i = Some s' ->
  s_type s' <> "motion"%string ->
  exists n : Z,
    (s_type s' = "temperature"%string /\ 150 <= n <= 350 \/
     s_type s' = "humidity"%string /\ 300 <= n <= 800) /\
    s_current_value s' = PFloat (F64.of_decimal false n (- 1)).
Proof.
  intros R Hi Hm.
  destruct (updated_sensor_grid self w i s' R Hi Hm)
    as (_ & n & H1 & _ & H3 & _).
  now exists n.
Qed.

(** X9: a value that an update has stored is a fixed point of the next
    update with a zero drift: when [random.uniform] returns [0.0] or
    [-0.0] for a temperature or humidity sensor of an updated fleet,
    adding, clamping and rounding give the value back, bit for bit. *)
Theorem zero_drift_keeps_the_value (self : SensorSimulator) (w : World)
    (i : nat) (s' : Sensor) (g : rng) (sg : bool) :
  reachable self ->
  nth_error (sensors (fst (update_sensor_values self w))) i = Some s' ->
  s_type s' <> "motion"%string ->
  fst (random_uniform (py_neg (cfg_drift_max (s_config s')))
                      (cfg_drift_max (s_config s')) g) = S754_zero sg ->
  s_current_value (fst (update_sensor s' g)) = s_current_value s'.
Proof.
  intros R Hi Hm Hz.
  destruct (updated_sensor_grid self w i s' R Hi Hm)
    as (Hc & n & _ & Hp & Hv & Hr & Hf & m & e & Hd).
  unfold update_sensor.
  destruct (String.eqb_spec (s_type s') "motion") as [Em|_]; [contradiction|].
  destruct (random_uniform _ _ g) as [d g']. cbn [fst] in Hz. subst d.
  cbn [fst set_current_value s_current_value].
  rewrite Hv, Hp. unfold in_range in Hr. apply andb_true_iff in Hr.
  destruct Hr as [Hlo Hhi].
  destruct (continuous_bounds _ _ Hc Hm) as (Blo & Bhi & Blt).
  rewrite py_add_float. cbn [py_float]. rewrite Hd.
  change (F64.add (S754_finite false m e) (S754_zero sg)) with (S754_finite false m e).
  rewrite <- Hd.
  rewrite clamp_round_agree; try assumption; [|rewrite Hd; discriminate].
  unfold clamp. rewrite (py_le_not_lt _ _ Hlo), (py_le_not_gt _ _ Hhi).
  cbn [py_round]. now rewrite Hf.
Qed.

End StoredValues.

(** ** Topics *)

Lemma string_forall_append (P : ascii -> bool) (a b : string) :
  string_forall P (a ++ b) = string_forall P a && string_forall P b.
Proof.
  induction a as [|x a IH]; cbn [append string_forall]; [reflexivity|].
  now rewrite IH, andb_assoc.
Qed.

Lemma string_of_uint_topic_chars (d : Decimal.uint) :
  string_forall topic_char (NilEmpty.string_of_uint d) = true.
Proof.
  induction d; cbn [NilEmpty.string_of_uint string_forall];
    rewrite ?IHd; reflexivity.
Qed.

Lemma str_int_topic_chars (z : Z) :
  0 < z -> string_forall topic_char (str_int z) = true.
Proof.
  intros Hz. unfold str_int. destruct z as [|p|p]; try lia.
  cbn [Z.to_int NilEmpty.string_of_int]. apply string_of_uint_topic_chars.
Qed.

Lemma sensor_type_topic_chars (t : string) (c : Config) :
  dict_get SENSOR_TYPES t = Ok c -> string_forall topic_char t = true.
Proof.
  intros H. apply sensor_types_cases in H.
  destruct H as [H|[H|[H|[]]]]; injection H as <- _; reflexivity.
Qed.

Section Topics.

Context {E : Env}.

(** X13: in a run, every topic that [publish_sensor_data] hands to the
    client is made of lower-case letters, digits, underscores and the
    level separator [/] only; it holds neither of the MQTT wildcards [+]
    and [#], which a client refuses in the topic of a publication. *)
Theorem topics_are_plain (self : SensorSimulator) (w : World) :
  reachable self ->
  exists msgs,
    published (client (fst (publish_sensor_data self w)))
      = (published (client self) ++ msgs)%list /\
    Forall (fun m : string * string =>
              string_forall topic_char (fst m) = true /\
              ~ occurs "+" (fst m) /\ ~ occurs "#" (fst m))
           msgs.
Proof.
  intros R. pose proof (reachable_static self R) as S.
  exists (map (message_of (fst (now_isoformat (w_clock w)))) (sensors self)).
  split; [apply publish_sensor_data_published|].
  apply Forall_forall. intros m Hin. apply in_map_iff in Hin.
  destruct Hin as (s & <- & Hin). cbn [message_of fst].
  apply In_nth_error in Hin. destruct Hin as [i Hi].
  destruct (S i s Hi) as [Hc Hid].
  assert (Ht : string_forall topic_char (topic_of s) = true).
  { unfold topic_of. rewrite Hid.
    rewrite !string_forall_append, (sensor_type_topic_chars _ _ Hc).
    rewrite str_int_topic_chars by lia. reflexivity. }
  split; [exact Ht|].
  assert (G : forall c, topic_char c = false -> ~ occurs c (topic_of s)).
  { intros c Hc'. revert Ht. generalize (topic_of s).
    induction s0 as [|a rest IH]; cbn [string_forall occurs]; [tauto|].
    intros Ha. apply andb_true_iff in Ha. destruct Ha as [Ha Hrest].
    intros [->|Ho]; [congruence|]. now apply IH. }
  split; apply G; reflexivity.
Qed.

End Topics.

(** ** Further runs on the concrete environment *)



Lemma empty_fleet_publishes_nothing_witness :
  exists self,
    __init__ (E := Demo.env) "localhost" 1883 (-3) DEFAULT_INTERVAL 7%nat
    = Ok (self, 7%nat) /\
    sensors self = [].
Proof.
  destruct (@empty_fleet_publishes_nothing Demo.env "localhost"%string 1883 (-3)
              DEFAULT_INTERVAL 7%nat ltac:(lia))
    as (self & Hi & Hs & _).
  exists self. split; assumption.
Defined.

Lemma fleet_size_is_num_sensors_witness :
  length (sensors (Demo.sim 4)) = Z.to_nat (num_sensors (Demo.sim 4)).
Proof.
  exact (@fleet_size_is_num_sensors Demo.env (Demo.sim 4) demo_reachable_4).
Defined.


Lemma updated_value_lies_on_the_grid_witness :
  let s' := nth 0 (sensors (fst (update_sensor_values (E := Demo.env)
                                                      (Demo.sim 4) (Demo.world 11))))
                Demo.sensor_203 in
  exists n : Z,
    (s_type s' = "temperature"%string /\ 150 <= n <= 350 \/
     s_type s' = "humidity"%string /\ 300 <= n <= 800) /\
    s_current_value s' = PFloat (F64.of_decimal false n (- 1)).
Proof.
  intros s'.
  apply (@updated_value_lies_on_the_grid Demo.env (Demo.sim 4) (Demo.world 11)
           0%nat s' demo_reachable_4).
  - vm_compute. reflexivity.
  - vm_compute. discriminate.
Defined.

Lemma zero_drift_keeps_the_value_witness :
  let s' := nth 0 (sensors (fst (update_sensor_values (E := Demo.env)
                                                      (Demo.sim 4) (Demo.world 11))))
                Demo.sensor_203 in
  s_current_value (fst (update_sensor (E := Demo.env) s' 25%nat))
  = s_current_value s'.
Proof.
  intros s'.
  apply (@zero_drift_keeps_the_value Demo.env (Demo.sim 4) (Demo.world 11)
           0%nat s' 25%nat false demo_reachable_4).
  - vm_compute. reflexivity.
  - vm_compute. discriminate.
  - vm_compute. reflexivity.
Defined.

Lemma construction_raises_only_IndexError_witness :
  __init__ (E := Demo.env_unbounded) "localhost" 1883 2 DEFAULT_INTERVAL 0%nat
  = Raise IndexError.
Proof.
  destruct (__init__ (E := Demo.env_unbounded) "localhost" 1883 2
                     DEFAULT_INTERVAL 0%nat) as [[self g]|e] eqn:H.
  - vm_compute in H. discriminate.
  - now rewrite (@construction_raises_only_IndexError Demo.env_unbounded
                   "localhost"%string 1883 2 DEFAULT_INTERVAL 0%nat e H).
Defined.


Lemma main_stops_on_refusal_witness :
  exists self w',
    main (E := Demo.env) (Demo.args_to "example.invalid" 3)
         (mkInterrupt 1 AtUpdate) Demo.world0
    = Ok (self, w') /\
    client self = mkClient false [] /\
    w_stdout w' = ["Failed to connect to MQTT broker: Connection refused"%string].
Proof.
  destruct (@main_stops_on_refusal Demo.env demo_randbelow_contract
              (Demo.args_to "example.invalid" 3) (mkInterrupt 1 AtUpdate)
              Demo.world0 "Connection refused"%string
              ltac:(vm_compute; reflexivity))
    as (self & w' & fleet & g' & Hm & _ & _ & _ & Hc & Ho).
  exists self, w'. repeat split; assumption.
Defined.

Lemma topics_are_plain_witness :
  exists msgs,
    published (client (fst (publish_sensor_data (E := Demo.env)
                                                (Demo.sim 4) (Demo.world 11))))
      = msgs /\
    Forall (fun m : string * string => ~ occurs "+" (fst m) /\ ~ occurs "#" (fst m))
           msgs.
Proof.
  destruct (@topics_are_plain Demo.env (Demo.sim 4) (Demo.world 11) demo_reachable_4)
    as (msgs & Hp & Hf).
  exists msgs. split; [exact Hp|].
  eapply Forall_impl; [|exact Hf]. intros m (_ & H1 & H2). now split.
Defined.
